(** * Reconciliation of Tableau project metadata (src/main.py)

    A shallow embedding of the lookups, the hierarchy walk and the two
    reconciliation passes of [main], with the properties the design
    document states about them. *)

From Stdlib Require Import ZArith String List Lia.
From stdpp Require Import base option list gmap strings pretty.

Local Open Scope Z_scope.
Local Open Scope string_scope.

(** ** Python values *)

(** The values the program reads from the two APIs and compares, converts
    with [str] or tests for truth: JSON scalars ([None], booleans, integers
    and strings). *)
Inductive pyval : Type :=
  | PNone
  | PBool (b : bool)
  | PInt (z : Z)
  | PStr (s : string).

#[global] Instance pyval_eq_dec : EqDecision pyval.
Proof. solve_decision. Defined.

(** [str(v)]. *)
Definition py_str (v : pyval) : string :=
  match v with
  | PNone => "None"
  | PBool true => "True"
  | PBool false => "False"
  | PInt z => pretty z
  | PStr s => s
  end.

(** The numeric reading of a value: [bool] is a subclass of [int]. *)
Definition py_num (v : pyval) : option Z :=
  match v with
  | PBool b => Some (if b then 1 else 0)
  | PInt z => Some z
  | _ => None
  end.

(** [a == b]. *)
Definition py_eq (a b : pyval) : bool :=
  match a, b with
  | PNone, PNone => true
  | PStr s, PStr t => bool_decide (s = t)
  | _, _ =>
      match py_num a, py_num b with
      | Some x, Some y => bool_decide (x = y)
      | _, _ => false
      end
  end.

(** Truth value of [v], as tested by [if v:]. *)
Definition py_truthy (v : pyval) : bool :=
  match v with
  | PNone => false
  | PBool b => b
  | PInt z => negb (bool_decide (z = 0))
  | PStr s => negb (bool_decide (s = ""))
  end.

(** A dict decoded from a JSON object with scalar members. *)
Abbreviation dict := (gmap string pyval).

(** ** Exceptions and results *)

Inductive exn : Type :=
  | Exception (msg : string)
  | KeyError (key : string)
  | TypeError (msg : string).

(** Subscripting [None], as in [parent_project["topLevelProject"]] when the
    lookup found nothing. *)
Definition none_not_subscriptable : exn :=
  TypeError "'NoneType' object is not subscriptable".

(** What running a piece of the program gives: a value, a raised exception,
    or [OutOfFuel] when the [for ... in count(1)] loop has not left after
    the number of iterations granted. *)
Inductive outcome (A : Type) : Type :=
  | Returned (a : A)
  | Raised (e : exn)
  | OutOfFuel.
Arguments Returned {A} a.
Arguments Raised {A} e.
Arguments OutOfFuel {A}.

Definition obind {A B} (m : outcome A) (k : A → outcome B) : outcome B :=
  match m with
  | Returned a => k a
  | Raised e => Raised e
  | OutOfFuel => OutOfFuel
  end.

Notation "'let?' x ':=' m 'in' k" := (obind m (fun x => k))
  (at level 10, x name, m at level 100, k at level 200,
   format "'[v' 'let?'  x  ':='  m  'in' '/' k ']'").

(** [d[k]]: a missing key raises [KeyError]. *)
Definition getitem (d : dict) (k : string) : outcome pyval :=
  match d !! k with
  | Some v => Returned v
  | None => Raised (KeyError k)
  end.

(** ** The three lookups *)

(** A project of the REST API ([TSC.ProjectItem]): the two attributes the
    program reads. *)
Record ProjectItem : Type := {
  id : pyval;
  content_permissions : pyval
}.

(** A project of the VizPortal API as the program holds it: the scalar
    entries of the dict, and the entry ["parentProject"] that the second
    pass binds.  That entry is the only one whose value is an object: it is
    [Some None] when bound to [None] and [Some (Some j)] when bound to the
    [j]-th dict of [vpc_projects] itself (a reference, not a copy). *)
Record project : Type := {
  fields : dict;
  parentProject : option (option nat)
}.

(** [next((user for user in vpc_users if user["id"] == str(user_id)), None)] *)
Fixpoint lookup_user_by_id (vpc_users : list dict) (user_id : pyval)
  : outcome (option dict) :=
  match vpc_users with
  | [] => Returned None
  | user :: vpc_users' =>
      let? i := getitem user "id" in
      if py_eq i (PStr (py_str user_id)) then Returned (Some user)
      else lookup_user_by_id vpc_users' user_id
  end.

(** [next((item for item in items if item.id == item_id), None)] *)
Fixpoint lookup_project_by_id (items : list ProjectItem) (item_id : pyval)
  : option ProjectItem :=
  match items with
  | [] => None
  | item :: items' =>
      if py_eq (id item) item_id then Some item
      else lookup_project_by_id items' item_id
  end.

(** [next((project for project in vpc_projects
          if project["id"] == str(parent_id)), None)].
    The dict found is returned with its position in [vpc_projects], which
    stands for the reference to it; [n] is the position of the head. *)
Fixpoint lookup_parent_from (n : nat) (vpc_projects : list project)
    (parent_id : pyval) : outcome (option (nat * project)) :=
  match vpc_projects with
  | [] => Returned None
  | p :: vpc_projects' =>
      let? i := getitem (fields p) "id" in
      if py_eq i (PStr (py_str parent_id)) then Returned (Some (n, p))
      else lookup_parent_from (S n) vpc_projects' parent_id
  end.

Definition lookup_parent_project (vpc_projects : list project)
    (parent_id : pyval) : outcome (option (nat * project)) :=
  lookup_parent_from 0 vpc_projects parent_id.

(** ** The hierarchy walk *)

(** The loop [for project_level in count(1)] of
    [get_project_level_and_root], entered at [project_level] with the
    current [vpc_project]; [fuel] bounds the iterations. *)
Fixpoint walk (fuel : nat) (vpc_projects : list project) (project_level : Z)
    (vpc_project : dict) : outcome (Z * pyval) :=
  match fuel with
  | O => OutOfFuel
  | S fuel' =>
      let? parent_id := getitem vpc_project "parentProjectId" in
      let? found := lookup_parent_project vpc_projects parent_id in
      match found with
      | None => Raised none_not_subscriptable
      | Some (_, parent_project) =>
          let? top := getitem (fields parent_project) "topLevelProject" in
          if py_truthy top then
            let? luid := getitem (fields parent_project) "luid" in
            Returned (project_level, luid)
          else
            walk fuel' vpc_projects (project_level + 1) (fields parent_project)
      end
  end.

Definition get_project_level_and_root (fuel : nat)
    (vpc_projects : list project) (vpc_project : dict) : outcome (Z * pyval) :=
  let? top := getitem vpc_project "topLevelProject" in
  if py_truthy top then
    let? luid := getitem vpc_project "luid" in
    Returned (0, luid)
  else walk fuel vpc_projects 1 vpc_project.

(** ** The state of [main] *)

(** The three collections [main] holds once both APIs have answered. *)
Record world : Type := {
  st_rest_projects : list ProjectItem;
  st_vpc_users : list dict;
  st_vpc_projects : list project
}.

(** Statements of [main]: they read and update the collections, and may
    raise or run out of fuel. *)
Definition M (A : Type) : Type := world → outcome (A * world).

Definition ret {A} (a : A) : M A := λ w, Returned (a, w).

Definition bind {A B} (m : M A) (k : A → M B) : M B := λ w,
  match m w with
  | Returned (a, w') => k a w'
  | Raised e => Raised e
  | OutOfFuel => OutOfFuel
  end.

Definition raise {A} (e : exn) : M A := λ _, Raised e.

Definition lift {A} (m : outcome A) : M A := λ w,
  let? a := m in Returned (a, w).

Definition gets {A} (f : world → A) : M A := λ w, Returned (f w, w).

Notation "'let!' x ':=' m 'in' k" := (bind m (fun x => k))
  (at level 10, x name, m at level 100, k at level 200,
   format "'[v' 'let!'  x  ':='  m  'in' '/' k ']'").

(** The dict the loop variable [vpc_project] is bound to at position [i] of
    [vpc_projects] (the loops bind it at the positions of the list only;
    elsewhere this reads as the empty dict). *)
Definition vpc_project_at (i : nat) : M dict :=
  gets (λ w, from_option fields ∅ (st_vpc_projects w !! i)).

Definition set_field (k : string) (v : pyval) (p : project) : project :=
  {| fields := <[k := v]> (fields p); parentProject := parentProject p |}.

Definition set_parent (r : option nat) (p : project) : project :=
  {| fields := fields p; parentProject := Some r |}.

Definition update_project (f : project → project) (i : nat) : M unit := λ w,
  Returned (tt, {| st_rest_projects := st_rest_projects w;
                   st_vpc_users := st_vpc_users w;
                   st_vpc_projects := alter f i (st_vpc_projects w) |}).

(** [vpc_project[k] = v], in place. *)
Definition setitem (i : nat) (k : string) (v : pyval) : M unit :=
  update_project (set_field k v) i.

(** [vpc_project[k]] *)
Definition project_getitem (i : nat) (k : string) : M pyval :=
  let! d := vpc_project_at i in lift (getitem d k).

(** [d.get(k)] *)
Definition dict_get (d : dict) (k : string) : pyval := default PNone (d !! k).

(** [for vpc_project in vpc_projects: body], over the positions [idxs]. *)
Fixpoint for_each (idxs : list nat) (body : nat → M unit) : M unit :=
  match idxs with
  | [] => ret tt
  | i :: idxs' => let! _ := body i in for_each idxs' body
  end.

Definition for_each_project (body : nat → M unit) : M unit := λ w,
  for_each (seq 0 (length (st_vpc_projects w))) body w.

(** ** The two passes of [main] *)

Definition not_found_message (luid : pyval) : string :=
  "Project with luid " +:+ py_str luid +:+ " not found".

(** The body of the first loop (lines 117-139). *)
Definition pass1_body (fuel : nat) (site_name : string) (i : nat) : M unit :=
  let! _ := setitem i "siteName" (PStr site_name) in
  let! luid := project_getitem i "luid" in
  let! rest_projects := gets st_rest_projects in
  match lookup_project_by_id rest_projects luid with
  | None =>
      let! luid := project_getitem i "luid" in
      raise (Exception (not_found_message luid))
  | Some rest_project =>
      let! _ := setitem i "contentPermissions"
                  (content_permissions rest_project) in
      let! owner_id := project_getitem i "ownerId" in
      let! vpc_users := gets st_vpc_users in
      let! project_owner := lift (lookup_user_by_id vpc_users owner_id) in
      match project_owner with
      | None => raise none_not_subscriptable
      | Some owner =>
          let! display_name := lift (getitem owner "displayName") in
          let! _ := setitem i "ownerName" display_name in
          let! username := lift (getitem owner "username") in
          let! _ := setitem i "ownerDSID" username in
          let! vpc_projects := gets st_vpc_projects in
          let! vpc_project := vpc_project_at i in
          let! lr := lift (get_project_level_and_root fuel vpc_projects
                             vpc_project) in
          let! _ := setitem i "projectLevel" (PInt (fst lr)) in
          setitem i "rootProjectId" (snd lr)
      end
  end.

(** The body of the second loop (lines 144-152). *)
Definition pass2_body (i : nat) : M unit :=
  let! vpc_project := vpc_project_at i in
  let parent_project_id := dict_get vpc_project "parentProjectId" in
  if py_truthy parent_project_id then
    let! vpc_projects := gets st_vpc_projects in
    let! found := lift (lookup_parent_project vpc_projects
                          parent_project_id) in
    update_project (set_parent (fst <$> found)) i
  else ret tt.

Definition pass1 (fuel : nat) (site_name : string) : M unit :=
  for_each_project (pass1_body fuel site_name).

Definition pass2 : M unit := for_each_project pass2_body.

(** A dict as decoded from the VizPortal answer: no ["parentProject"]
    bound yet. *)
Definition fetched (d : dict) : project :=
  {| fields := d; parentProject := None |}.

(** The state when both APIs have answered. *)
Definition fetched_state (rest_projects : list ProjectItem)
    (vpc_projects vpc_users : list dict) : world :=
  {| st_rest_projects := rest_projects;
     st_vpc_users := vpc_users;
     st_vpc_projects := fetched <$> vpc_projects |}.

(** The reconciliation in [main] (lines 117-152) on the collections the two
    APIs returned.  [Returned w] is the state handed to [json.dump]; when
    an exception is raised the file is never opened. *)
Definition main (fuel : nat) (site_name : string)
    (rest_projects : list ProjectItem) (vpc_projects vpc_users : list dict)
  : outcome world :=
  let? r := (let! _ := pass1 fuel site_name in pass2)
              (fetched_state rest_projects vpc_projects vpc_users) in
  Returned (snd r).

(** ** The VizPortal call *)

Record page_params : Type := { startIndex : Z; maxItems : Z }.
Record order_params : Type := { field : string; ascending : bool }.
Record params_t : Type := { order : list order_params; page : page_params }.
Record payload_t : Type := { method : string; params : params_t }.

(** The answer of [requests.post]: status, text and decoded JSON body, a
    dict of dicts of lists of records. *)
Record response : Type := {
  status_code : Z;
  text : string;
  json : gmap string (gmap string (list dict))
}.

(** [server] is the remote end: what it answers to a posted payload. *)
Definition viz_portal_call (server : payload_t → response)
    (payload : payload_t) : outcome (gmap string (gmap string (list dict))) :=
  let response := server payload in
  if bool_decide (status_code response ≠ 200) then
    Raised (Exception ("Response: " +:+ text response))
  else Returned (json response).

Definition project_payload : payload_t :=
  {| method := "getProjects";
     params := {| order := [ {| field := "name"; ascending := true |} ];
                  page := {| startIndex := 0; maxItems := 600 |} |} |}.

Definition getitem_of {V} (d : gmap string V) (k : string) : outcome V :=
  match d !! k with
  | Some v => Returned v
  | None => Raised (KeyError k)
  end.

Definition get_project_vpc_data (server : payload_t → response)
  : outcome (list dict * list dict) :=
  let? vpc_projects := viz_portal_call server project_payload in
  let? result := getitem_of vpc_projects "result" in
  let? projects := getitem_of result "projects" in
  let? users := getitem_of result "users" in
  Returned (projects, users).

(** A VizPortal end that holds [projects] and [users] and answers
    [getProjects] with the window of projects the request's [page] asks
    for. *)
Definition paging_server (projects users : list dict)
    (payload : payload_t) : response :=
  let pg := page (params payload) in
  {| status_code := 200;
     text := "";
     json := {[ "result" :=
                  <[ "projects" := take (Z.to_nat (maxItems pg))
                                     (drop (Z.to_nat (startIndex pg)) projects) ]>
                  {[ "users" := users ]} ]} |}.

(** ** Fixtures *)

(** Two projects whose parents are each other, neither top-level. *)
Definition cycle_A : dict :=
  list_to_map [("id", PStr "a"); ("luid", PStr "A");
               ("topLevelProject", PBool false); ("parentProjectId", PStr "b")].
Definition cycle_B : dict :=
  list_to_map [("id", PStr "b"); ("luid", PStr "B");
               ("topLevelProject", PBool false); ("parentProjectId", PStr "a")].
Definition cycle_projects : list project := [fetched cycle_A; fetched cycle_B].

(** [on_parent_cycle vpc_projects S]: every dict of [S] is not top-level
    and its parent, as the walk resolves it in [vpc_projects], is a
    project of [S] again.  The projects of a parent cycle (and those whose
    chain leads into one) form such a set. *)
Definition on_parent_cycle (vpc_projects : list project) (S : dict → Prop)
  : Prop :=
  ∀ d, S d →
    ∃ top parent_id j q,
      d !! "topLevelProject" = Some top ∧ py_truthy top = false ∧
      d !! "parentProjectId" = Some parent_id ∧
      lookup_parent_project vpc_projects parent_id = Returned (Some (j, q)) ∧
      S (fields q).

(** Three projects in a chain, children listed before their parents, with
    their REST counterparts and their owner. *)
Definition scenario_rest : list ProjectItem :=
  [ {| id := PStr "1"; content_permissions := PStr "managed" |};
    {| id := PStr "2"; content_permissions := PStr "managed" |};
    {| id := PStr "3"; content_permissions := PStr "locked" |} ].
Definition scenario_users : list dict :=
  [ list_to_map [("id", PStr "u1"); ("displayName", PStr "Alice");
                 ("username", PStr "alice@x")] ].
Definition scenario_1 : dict :=
  list_to_map [("id", PStr "1"); ("luid", PStr "1");
               ("topLevelProject", PBool true); ("ownerId", PStr "u1")].
Definition scenario_2 : dict :=
  list_to_map [("id", PStr "2"); ("luid", PStr "2");
               ("topLevelProject", PBool false); ("ownerId", PStr "u1");
               ("parentProjectId", PStr "1")].
Definition scenario_3 : dict :=
  list_to_map [("id", PStr "3"); ("luid", PStr "3");
               ("topLevelProject", PBool false); ("ownerId", PStr "u1");
               ("parentProjectId", PStr "2")].
Definition scenario_projects : list dict :=
  [scenario_3; scenario_2; scenario_1].

(** A project the REST API does not know. *)
Definition stray_project : dict :=
  list_to_map [("id", PStr "9"); ("luid", PStr "9");
               ("topLevelProject", PBool true); ("ownerId", PStr "u1")].

(** A project whose owner is not among the users. *)
Definition orphan_project : dict :=
  list_to_map [("id", PStr "1"); ("luid", PStr "1");
               ("topLevelProject", PBool true); ("ownerId", PStr "u2")].

(** A site of 601 projects. *)
Definition site_601 : list dict :=
  (λ n : nat, {[ "luid" := PInt (Z.of_nat n) ]}) <$> seq 0 601.


(** ** Vocabulary of the statements *)

(** The keys the first pass writes. *)
Definition pass1_keys : list string :=
  ["siteName"; "contentPermissions"; "ownerName"; "ownerDSID";
   "projectLevel"; "rootProjectId"].

(** [d'] has the entries of [d] on every key the first pass does not
    write. *)
Definition same_inputs (d d' : dict) : Prop :=
  ∀ k, k ∉ pass1_keys → d' !! k = d !! k.

(** The state in which the [i]-th project is [p]. *)
Definition with_project (i : nat) (p : project) (w : world) : world :=
  {| st_rest_projects := st_rest_projects w;
     st_vpc_users := st_vpc_users w;
     st_vpc_projects := <[i := p]> (st_vpc_projects w) |}.

(** The six writes of the first pass, in the order of the source. *)
Definition enrich (site_name : string) (permissions display_name username : pyval)
    (level : Z) (root : pyval) (p : project) : project :=
  set_field "rootProjectId" root
    (set_field "projectLevel" (PInt level)
       (set_field "ownerDSID" username
          (set_field "ownerName" display_name
             (set_field "contentPermissions" permissions
                (set_field "siteName" (PStr site_name) p))))).

(** [p] carries what the first pass computes for it from the collections
    of [w]: the configured site name, the permissions of the REST project
    joined on [luid], the owner's names, and the level and root the walk
    returns. *)
Definition enriched (fuel : nat) (site_name : string) (w : world)
    (p : project) : Prop :=
  fields p !! "siteName" = Some (PStr site_name) ∧
  (∃ luid rest_project,
     fields p !! "luid" = Some luid ∧
     lookup_project_by_id (st_rest_projects w) luid = Some rest_project ∧
     fields p !! "contentPermissions"
       = Some (content_permissions rest_project)) ∧
  (∃ owner_id owner,
     fields p !! "ownerId" = Some owner_id ∧
     lookup_user_by_id (st_vpc_users w) owner_id = Returned (Some owner) ∧
     is_Some (owner !! "displayName") ∧
     fields p !! "ownerName" = owner !! "displayName" ∧
     is_Some (owner !! "username") ∧
     fields p !! "ownerDSID" = owner !! "username") ∧
  (∃ level root,
     get_project_level_and_root fuel (st_vpc_projects w) (fields p)
       = Returned (level, root) ∧
     fields p !! "projectLevel" = Some (PInt level) ∧
     fields p !! "rootProjectId" = Some root).

(** What the second pass leaves in the ["parentProject"] entry of [p]: for
    a truthy [parentProjectId], the reference the parent lookup returns
    ([None] when it finds nothing); otherwise no entry. *)
Definition linked (vpc_projects : list project) (p : project) : Prop :=
  let parent_project_id := dict_get (fields p) "parentProjectId" in
  if py_truthy parent_project_id then
    ∃ found,
      lookup_parent_project vpc_projects parent_project_id = Returned found ∧
      parentProject p = Some (fst <$> found)
  else parentProject p = None.

(** The record a project's ["parentProject"] entry refers to, read in the
    state [w]. *)
Definition embedded_parent (w : world) (p : project) : option project :=
  r ← parentProject p; j ← r; st_vpc_projects w !! j.

(** Fetched collections on which nothing can fail: every project has an
    ["id"], a [luid] with a REST project, an owner among the users who has
    both names, and a chain of parents that the walk follows to a
    top-level project within [fuel] iterations; every user has an ["id"]. *)
Definition reconcilable (fuel : nat) (rest_projects : list ProjectItem)
    (vpc_projects vpc_users : list dict) : Prop :=
  Forall (λ d : dict,
    is_Some (d !! "id") ∧
    (∃ luid, d !! "luid" = Some luid ∧
             is_Some (lookup_project_by_id rest_projects luid)) ∧
    (∃ owner_id owner,
       d !! "ownerId" = Some owner_id ∧
       lookup_user_by_id vpc_users owner_id = Returned (Some owner) ∧
       is_Some (owner !! "displayName") ∧ is_Some (owner !! "username")) ∧
    (∃ lr, get_project_level_and_root fuel (fetched <$> vpc_projects) d
             = Returned lr))
    vpc_projects.

(** Two parent lookups that agree: same exception, or nothing found, or
    the same position with dicts related by [R]. *)
Definition lookups_agree (R : project → project → Prop)
    (a b : outcome (option (nat * project))) : Prop :=
  match a, b with
  | Returned None, Returned None => True
  | Returned (Some (j, p)), Returned (Some (j', p')) => j = j' ∧ R p p'
  | Raised e, Raised e' => e = e'
  | _, _ => False
  end.

(** ** Vocabulary of the walk *)

Definition is_top_level (d : dict) : Prop :=
  ∃ top, d !! "topLevelProject" = Some top ∧ py_truthy top = true.

Definition not_top_level (d : dict) : Prop :=
  ∃ top, d !! "topLevelProject" = Some top ∧ py_truthy top = false.

(** The parent lookup of the walk, from [d], finds [q] at position [j]. *)
Definition resolves_parent (vpc_projects : list project) (d : dict)
    (j : nat) (q : project) : Prop :=
  ∃ parent_id,
    d !! "parentProjectId" = Some parent_id ∧
    lookup_parent_project vpc_projects parent_id = Returned (Some (j, q)).

(** [climbs vpc_projects d k d']: after [k] rounds of the loop started with
    [vpc_project = d], each of which found a parent that is not top-level,
    the loop variable is [d']. *)
Inductive climbs (vpc_projects : list project) : dict → nat → dict → Prop :=
  | climbs_here d : climbs vpc_projects d 0 d
  | climbs_up d j q k d' :
      resolves_parent vpc_projects d j q →
      not_top_level (fields q) →
      climbs vpc_projects (fields q) k d' →
      climbs vpc_projects d (S k) d'.

(** The loop started with [d] leaves (returns or raises) in its round
    number [f + 1], not before. *)
Definition leaves_after (vpc_projects : list project) (d : dict) (f : nat)
  : Prop :=
  walk f vpc_projects 0 d = OutOfFuel ∧
  walk (S f) vpc_projects 0 d ≠ OutOfFuel.

(** A record whose ["id"] is present and is not the string [s]. *)
Definition other_id (s : string) (d : dict) : Prop :=
  ∃ i, d !! "id" = Some i ∧ i ≠ PStr s.

(** The exceptions [main] can raise. *)
Definition main_error (e : exn) : Prop :=
  (∃ luid, e = Exception ("Project with luid " +:+ py_str luid
                          +:+ " not found")) ∨
  e = TypeError "'NoneType' object is not subscriptable" ∨
  ∃ k, e = KeyError k ∧
       k ∈ ["luid"; "ownerId"; "id"; "displayName"; "username";
            "topLevelProject"; "parentProjectId"].

(** A chain with a dangling reference: project "3" names a parent that is
    not in the collection. *)
Definition dangling_3 : dict :=
  list_to_map [("id", PStr "3"); ("luid", PStr "3");
               ("topLevelProject", PBool false); ("ownerId", PStr "u1");
               ("parentProjectId", PStr "7")].
Definition dangling_4 : dict :=
  list_to_map [("id", PStr "4"); ("luid", PStr "4");
               ("topLevelProject", PBool false); ("ownerId", PStr "u1");
               ("parentProjectId", PStr "3")].

(** A project that is not top-level and names no parent. *)
Definition rootless_5 : dict :=
  list_to_map [("id", PStr "5"); ("luid", PStr "5");
               ("topLevelProject", PBool false); ("ownerId", PStr "u1")].
Definition rootless_6 : dict :=
  list_to_map [("id", PStr "6"); ("luid", PStr "6");
               ("topLevelProject", PBool false); ("ownerId", PStr "u1");
               ("parentProjectId", PStr "5")].

(** A top-level project with no ["ownerId"]. *)
Definition ownerless_project : dict :=
  list_to_map [("id", PStr "1"); ("luid", PStr "1");
               ("topLevelProject", PBool true)].

(** ** Values and lookups *)

Lemma py_eq_str v s : py_eq v (PStr s) = true ↔ v = PStr s.
Proof.
  destruct v as [|b|z|t]; simpl; try (split; [discriminate|congruence]).
  rewrite bool_decide_eq_true. split; congruence.
Qed.

Lemma getitem_Returned d k v : getitem d k = Returned v ↔ d !! k = Some v.
Proof. unfold getitem. destruct (d !! k); split; congruence. Qed.

Lemma lookup_user_by_id_find (vpc_users : list dict) user_id :
  Forall (λ u : dict, is_Some (u !! "id")) vpc_users →
  lookup_user_by_id vpc_users user_id =
    Returned (snd <$> list_find
                (λ u : dict, u !! "id" = Some (PStr (py_str user_id)))
                vpc_users).
Proof.
  induction 1 as [|u us [i Hi] _ IH]; [done|].
  simpl. unfold getitem. rewrite Hi. simpl.
  destruct (py_eq i (PStr (py_str user_id))) eqn:E.
  - apply py_eq_str in E as ->. by rewrite decide_True.
  - rewrite decide_False.
    + rewrite IH. by destruct (list_find _ us) as [[]|].
    + intros [= ->]. by rewrite (proj2 (py_eq_str _ _)) in E.
Qed.

Lemma lookup_parent_from_find n (vpc_projects : list project) parent_id :
  Forall (λ p, is_Some (fields p !! "id")) vpc_projects →
  lookup_parent_from n vpc_projects parent_id =
    Returned (prod_map (plus n) Datatypes.id <$> list_find
                (λ p, fields p !! "id" = Some (PStr (py_str parent_id)))
                vpc_projects).
Proof.
  intros H. revert n.
  induction H as [|p ps [i Hi] _ IH]; intros n; [done|].
  simpl. unfold getitem. rewrite Hi. simpl.
  destruct (py_eq i (PStr (py_str parent_id))) eqn:E.
  - apply py_eq_str in E as ->. rewrite decide_True by done.
    simpl. by rewrite Nat.add_0_r.
  - rewrite decide_False.
    + rewrite IH. destruct (list_find _ ps) as [[j q]|]; simpl; [|done].
      by rewrite Nat.add_succ_r.
    + intros [= ->]. by rewrite (proj2 (py_eq_str _ _)) in E.
Qed.

Lemma lookup_project_by_id_find items item_id :
  lookup_project_by_id items item_id =
    snd <$> list_find (λ it, py_eq (id it) item_id = true) items.
Proof.
  induction items as [|it items IH]; [done|].
  simpl. destruct (py_eq (id it) item_id) eqn:E.
  - by rewrite decide_True.
  - rewrite decide_False by congruence.
    rewrite IH. by destruct (list_find _ items) as [[]|].
Qed.

(** The reference a parent lookup returns designates the dict it returns. *)
Lemma lookup_parent_from_lookup n vpc_projects parent_id j q :
  lookup_parent_from n vpc_projects parent_id = Returned (Some (j, q)) →
  (n ≤ j)%nat ∧ vpc_projects !! (j - n)%nat = Some q ∧
  fields q !! "id" = Some (PStr (py_str parent_id)).
Proof.
  revert n. induction vpc_projects as [|p ps IH]; intros n; simpl; [done|].
  unfold getitem. destruct (fields p !! "id") as [i|] eqn:Hi; simpl; [|done].
  destruct (py_eq i (PStr (py_str parent_id))) eqn:E.
  - intros [= <- <-]. rewrite Nat.sub_diag. apply py_eq_str in E as ->.
    by split; [lia|].
  - intros H. apply IH in H as (Hle & Hq & Hid).
    split; [lia|]. split; [|done].
    replace (j - n)%nat with (S (j - S n)) by lia. done.
Qed.

(** ** Properties of the hierarchy walk *)

(** The level at which the loop is entered only shifts the level it
    returns. *)
Definition shift_level (k : Z) (r : outcome (Z * pyval)) : outcome (Z * pyval) :=
  let? lr := r in Returned (fst lr + k, snd lr).

Lemma walk_shift fuel vpc_projects l k d :
  walk fuel vpc_projects (l + k) d = shift_level k (walk fuel vpc_projects l d).
Proof.
  revert l d. induction fuel as [|fuel IH]; intros l d; simpl; [done|].
  destruct (getitem d "parentProjectId") as [pid| |]; simpl; try done.
  destruct (lookup_parent_project vpc_projects pid) as [[[j q]|]| |];
    simpl; try done.
  destruct (getitem (fields q) "topLevelProject") as [top| |]; simpl; try done.
  destruct (py_truthy top).
  - by destruct (getitem (fields q) "luid").
  - replace (l + k + 1) with (l + 1 + k) by lia. apply IH.
Qed.

Lemma walk_on_parent_cycle vpc_projects S :
  on_parent_cycle vpc_projects S →
  ∀ fuel l d, S d → walk fuel vpc_projects l d = OutOfFuel.
Proof.
  intros HS. induction fuel as [|fuel IH]; intros l d Hd; simpl; [done|].
  destruct (HS d Hd) as (top & pid & j & q & _ & _ & Hpid & Hq & HSq).
  rewrite (proj2 (getitem_Returned _ _ _) Hpid). simpl. rewrite Hq. simpl.
  destruct (HS _ HSq) as (top' & ? & ? & ? & Htop' & Hf & _).
  rewrite (proj2 (getitem_Returned _ _ _) Htop'). simpl. rewrite Hf.
  by apply IH.
Qed.

Lemma cycle_projects_on_parent_cycle :
  on_parent_cycle cycle_projects (λ d, d = cycle_A ∨ d = cycle_B).
Proof.
  intros d [-> | ->].
  - exists (PBool false), (PStr "b"), 1%nat, (fetched cycle_B).
    repeat split; try reflexivity. by right.
  - exists (PBool false), (PStr "a"), 0%nat, (fetched cycle_A).
    repeat split; try reflexivity. by left.
Qed.

(** C1 (as the code behaves).  From a project on a parent cycle among
    non-top-level projects the hierarchy walk never leaves its loop: for
    every number of iterations granted it is still running, so it neither
    returns a level nor raises an error. *)
Theorem walk_on_cycle_never_ends vpc_projects (S : dict → Prop) d :
  on_parent_cycle vpc_projects S → S d →
  ∀ fuel, get_project_level_and_root fuel vpc_projects d = OutOfFuel.
Proof.
  intros HS Hd fuel. unfold get_project_level_and_root.
  destruct (HS d Hd) as (top & ? & ? & ? & Htop & Hf & _).
  rewrite (proj2 (getitem_Returned _ _ _) Htop). simpl. rewrite Hf.
  by eapply walk_on_parent_cycle.
Qed.

Lemma walk_on_cycle_never_ends_witness :
  get_project_level_and_root 1000 cycle_projects cycle_A = OutOfFuel.
Proof.
  apply (walk_on_cycle_never_ends cycle_projects
           (λ d, d = cycle_A ∨ d = cycle_B)).
  - exact cycle_projects_on_parent_cycle.
  - by left.
Defined.

(** C1 (as stated) fails: on the A/B fixture no number of iterations makes
    the walk raise an error. *)
Lemma cycle_raises_no_error :
  ¬ ∃ fuel e,
      get_project_level_and_root fuel cycle_projects cycle_A = Raised e.
Proof.
  intros (fuel & e & H). unfold get_project_level_and_root in H.
  change (walk fuel cycle_projects 1 cycle_A = Raised e) in H.
  rewrite (walk_on_parent_cycle _ _ cycle_projects_on_parent_cycle) in H;
    [done | by left].
Qed.

(** C3.  For a project whose [topLevelProject] flag is set the walk returns
    level 0 and the project's own [luid], whatever the collection and
    without entering the loop (no iteration is needed). *)
Theorem top_level_identity fuel vpc_projects (p : dict) top luid :
  p !! "topLevelProject" = Some top → py_truthy top = true →
  p !! "luid" = Some luid →
  get_project_level_and_root fuel vpc_projects p = Returned (0, luid).
Proof.
  intros Htop Ht Hluid. unfold get_project_level_and_root, getitem.
  rewrite Htop. simpl. rewrite Ht, Hluid. done.
Qed.

(** C4.  For a project [p] that is not top-level and whose parent
    identifier resolves to [q] in the collection, when the walk from [q]
    returns [(n, r)] the walk from [p] returns [(n + 1, r)]: one level
    deeper, same top-level ancestor. *)
Theorem depth_monotonicity fuel vpc_projects (p : dict) top parent_id j q n r :
  p !! "topLevelProject" = Some top → py_truthy top = false →
  p !! "parentProjectId" = Some parent_id →
  lookup_parent_project vpc_projects parent_id = Returned (Some (j, q)) →
  get_project_level_and_root fuel vpc_projects (fields q) = Returned (n, r) →
  get_project_level_and_root (S fuel) vpc_projects p = Returned (n + 1, r).
Proof.
  intros Htop Hf Hpid Hq. unfold get_project_level_and_root.
  rewrite (proj2 (getitem_Returned _ _ _) Htop). simpl. rewrite Hf.
  rewrite (proj2 (getitem_Returned _ _ _) Hpid). simpl. rewrite Hq. simpl.
  destruct (getitem (fields q) "topLevelProject") as [qtop| |]; simpl;
    try done.
  destruct (py_truthy qtop).
  - destruct (getitem (fields q) "luid"); simpl; [|done..].
    by intros [= <- <-].
  - intros H. rewrite walk_shift, H. done.
Qed.

(** ** Steps of [main] *)

Lemma with_project_id i p w :
  st_vpc_projects w !! i = Some p → with_project i p w = w.
Proof.
  intros H. destruct w as [r u v]. unfold with_project. simpl in *.
  by rewrite list_insert_id.
Qed.

Lemma with_project_twice i p p' w :
  with_project i p' (with_project i p w) = with_project i p' w.
Proof. unfold with_project. simpl. by rewrite list_insert_insert_eq. Qed.

Lemma update_project_with f i p w :
  (i < length (st_vpc_projects w))%nat →
  update_project f i (with_project i p w)
    = Returned (tt, with_project i (f p) w).
Proof.
  intros Hi. unfold update_project, with_project. simpl. do 3 f_equal.
  apply list_eq. intros j. destruct (decide (i = j)) as [<-|Hne].
  - rewrite list_lookup_alter_eq, !list_lookup_insert_eq by done. done.
  - by rewrite list_lookup_alter_ne, !list_lookup_insert_ne by done.
Qed.

Lemma vpc_project_at_with i p w :
  (i < length (st_vpc_projects w))%nat →
  vpc_project_at i (with_project i p w)
    = Returned (fields p, with_project i p w).
Proof.
  intros Hi. unfold vpc_project_at, gets. simpl.
  by rewrite list_lookup_insert_eq.
Qed.

Lemma project_getitem_with i p k w :
  (i < length (st_vpc_projects w))%nat →
  project_getitem i k (with_project i p w)
    = let? v := getitem (fields p) k in Returned (v, with_project i p w).
Proof.
  intros Hi. unfold project_getitem, bind.
  by rewrite vpc_project_at_with.
Qed.

Lemma setitem_with i k v p w :
  (i < length (st_vpc_projects w))%nat →
  setitem i k v (with_project i p w)
    = Returned (tt, with_project i (set_field k v p) w).
Proof. apply update_project_with. Qed.

Lemma bind_eq {A B} (m : M A) (k : A → M B) w :
  bind m k w = match m w with
               | Returned (a, w') => k a w'
               | Raised e => Raised e
               | OutOfFuel => OutOfFuel
               end.
Proof. done. Qed.

Lemma getitem_set_field_ne k v p k' :
  k ≠ k' → getitem (fields (set_field k v p)) k' = getitem (fields p) k'.
Proof. intros. unfold getitem. simpl. by rewrite lookup_insert_ne. Qed.

(** What one round of the first loop has done when it completes. *)
Lemma pass1_body_Returned fuel site i w p u w' :
  st_vpc_projects w !! i = Some p →
  pass1_body fuel site i w = Returned (u, w') →
  ∃ luid rp oid owner dn un lvl root,
    fields p !! "luid" = Some luid ∧
    lookup_project_by_id (st_rest_projects w) luid = Some rp ∧
    fields p !! "ownerId" = Some oid ∧
    lookup_user_by_id (st_vpc_users w) oid = Returned (Some owner) ∧
    owner !! "displayName" = Some dn ∧ owner !! "username" = Some un ∧
    (let p4 := set_field "ownerDSID" un
                 (set_field "ownerName" dn
                    (set_field "contentPermissions" (content_permissions rp)
                       (set_field "siteName" (PStr site) p))) in
     get_project_level_and_root fuel (<[i := p4]> (st_vpc_projects w))
       (fields p4) = Returned (lvl, root)) ∧
    w' = with_project i
           (enrich site (content_permissions rp) dn un lvl root p) w.
Proof.
  intros Hp H. pose proof (lookup_lt_Some _ _ _ Hp) as Hi.
  rewrite <- (with_project_id i p w Hp) in H at 1.
  unfold pass1_body in H.
  rewrite bind_eq, setitem_with in H by done.
  rewrite bind_eq, project_getitem_with in H by done.
  rewrite getitem_set_field_ne in H by done.
  destruct (getitem (fields p) "luid") as [luid| |] eqn:Hluid; [|done..].
  apply getitem_Returned in Hluid. cbn [obind] in H.
  rewrite bind_eq in H. unfold gets at 1 in H.
  cbn [st_rest_projects with_project] in H.
  destruct (lookup_project_by_id (st_rest_projects w) luid) as [rp|] eqn:Hrp.
  2:{ rewrite bind_eq, project_getitem_with in H by done.
      by destruct (getitem _ "luid"). }
  rewrite bind_eq, setitem_with in H by done.
  rewrite bind_eq, project_getitem_with in H by done.
  rewrite !getitem_set_field_ne in H by done.
  destruct (getitem (fields p) "ownerId") as [oid| |] eqn:Hoid; [|done..].
  apply getitem_Returned in Hoid. cbn [obind] in H.
  rewrite bind_eq in H. unfold gets at 1 in H.
  cbn [st_vpc_users with_project] in H.
  rewrite bind_eq in H. unfold lift at 1 in H.
  destruct (lookup_user_by_id (st_vpc_users w) oid) as [[owner|]| |] eqn:Hown;
    [|done..].
  cbn [obind] in H.
  rewrite bind_eq in H. unfold lift at 1 in H.
  destruct (getitem owner "displayName") as [dn| |] eqn:Hdn; [|done..].
  apply getitem_Returned in Hdn. cbn [obind] in H.
  rewrite bind_eq, setitem_with in H by done.
  rewrite bind_eq in H. unfold lift at 1 in H.
  destruct (getitem owner "username") as [un| |] eqn:Hun; [|done..].
  apply getitem_Returned in Hun. cbn [obind] in H.
  rewrite bind_eq, setitem_with in H by done.
  rewrite bind_eq in H. unfold gets at 1 in H.
  cbn [st_vpc_projects with_project] in H.
  rewrite bind_eq, vpc_project_at_with in H by done.
  rewrite bind_eq in H. unfold lift at 1 in H.
  destruct (get_project_level_and_root _ _ _) as [[lvl root]| |] eqn:Hwalk;
    [|done..].
  cbn [obind fst snd] in H.
  rewrite bind_eq, setitem_with in H by done.
  rewrite setitem_with in H by done.
  injection H as <-.
  by exists luid, rp, oid, owner, dn, un, lvl, root.
Qed.

(** The round of a project with no REST project for its [luid]. *)
Lemma pass1_body_no_rest_project fuel site i w p luid :
  st_vpc_projects w !! i = Some p →
  fields p !! "luid" = Some luid →
  lookup_project_by_id (st_rest_projects w) luid = None →
  pass1_body fuel site i w = Raised (Exception (not_found_message luid)).
Proof.
  intros Hp Hluid Hrp. pose proof (lookup_lt_Some _ _ _ Hp) as Hi.
  apply getitem_Returned in Hluid.
  rewrite <- (with_project_id i p w Hp) at 1.
  unfold pass1_body.
  rewrite bind_eq, setitem_with by done.
  rewrite bind_eq, project_getitem_with by done.
  rewrite getitem_set_field_ne, Hluid by done. cbn [obind].
  rewrite bind_eq. unfold gets at 1. cbn [st_rest_projects with_project].
  rewrite Hrp, bind_eq, project_getitem_with by done.
  by rewrite getitem_set_field_ne, Hluid by done.
Qed.

(** The round of a project whose owner is not among the users. *)
Lemma pass1_body_no_owner fuel site i w p luid rp oid :
  st_vpc_projects w !! i = Some p →
  fields p !! "luid" = Some luid →
  lookup_project_by_id (st_rest_projects w) luid = Some rp →
  fields p !! "ownerId" = Some oid →
  lookup_user_by_id (st_vpc_users w) oid = Returned None →
  pass1_body fuel site i w = Raised none_not_subscriptable.
Proof.
  intros Hp Hluid Hrp Hoid Hown. pose proof (lookup_lt_Some _ _ _ Hp) as Hi.
  apply getitem_Returned in Hluid, Hoid.
  rewrite <- (with_project_id i p w Hp) at 1.
  unfold pass1_body.
  rewrite bind_eq, setitem_with by done.
  rewrite bind_eq, project_getitem_with by done.
  rewrite getitem_set_field_ne, Hluid by done. cbn [obind].
  rewrite bind_eq. unfold gets at 1. cbn [st_rest_projects with_project].
  rewrite Hrp, bind_eq, setitem_with by done.
  rewrite bind_eq, project_getitem_with by done.
  rewrite !getitem_set_field_ne, Hoid by done. cbn [obind].
  rewrite bind_eq. unfold gets at 1. cbn [st_vpc_users with_project].
  rewrite bind_eq. unfold lift at 1. by rewrite Hown.
Qed.

(** What one round of the second loop has done when it completes. *)
Lemma pass2_body_Returned i w p u w' :
  st_vpc_projects w !! i = Some p →
  pass2_body i w = Returned (u, w') →
  let parent_project_id := dict_get (fields p) "parentProjectId" in
  if py_truthy parent_project_id then
    ∃ found,
      lookup_parent_project (st_vpc_projects w) parent_project_id
        = Returned found ∧
      w' = with_project i (set_parent (fst <$> found) p) w
  else w' = w.
Proof.
  intros Hp H. pose proof (lookup_lt_Some _ _ _ Hp) as Hi. simpl.
  unfold pass2_body in H. rewrite bind_eq in H.
  unfold vpc_project_at, gets at 1 in H. rewrite Hp in H. simpl in H.
  destruct (py_truthy _).
  - rewrite bind_eq in H. unfold gets at 1 in H.
    rewrite bind_eq in H. unfold lift at 1 in H.
    destruct (lookup_parent_project _ _) as [found| |]; [|done..].
    cbn [obind] in H. exists found. split; [done|].
    rewrite <- (with_project_id i p w Hp) in H.
    rewrite update_project_with in H by done. by injection H as <-.
  - unfold ret in H. by injection H as <-.
Qed.

(** ** Loops *)

Lemma for_each_app idxs idxs' body w :
  for_each (idxs ++ idxs') body w =
    match for_each idxs body w with
    | Returned (_, w') => for_each idxs' body w'
    | Raised e => Raised e
    | OutOfFuel => OutOfFuel
    end.
Proof.
  revert w. induction idxs as [|i idxs IH]; intros w; simpl; [done|].
  rewrite !bind_eq. destruct (body i w) as [[[] w1]| |]; [|done..].
  apply IH.
Qed.

(** A property [I k], of the state before round [k], carried through the
    rounds of a loop over the positions [s], ..., [s + n - 1]. *)
Lemma for_each_seq_inv (I : nat → world → Prop) body n :
  ∀ s w u w',
    (∀ k w u w', (s ≤ k < s + n)%nat → I k w →
                 body k w = Returned (u, w') → I (S k) w') →
    I s w → for_each (seq s n) body w = Returned (u, w') → I (s + n)%nat w'.
Proof.
  induction n as [|n IH]; intros s w u w' Hstep Hs H; simpl in H.
  - unfold ret in H. simplify_eq. by rewrite Nat.add_0_r.
  - rewrite bind_eq in H.
    destruct (body s w) as [[[] w1]| |] eqn:Hb; [|done..].
    replace (s + S n)%nat with (S s + n)%nat by lia.
    eapply (IH (S s) w1); [|by eapply Hstep; [lia|..]|done].
    intros k w2 u2 w2' Hk. apply Hstep. lia.
Qed.

(** ** What the first pass leaves untouched *)

Lemma same_inputs_refl d : same_inputs d d.
Proof. by intros k _. Qed.

Lemma same_inputs_sym d d' : same_inputs d d' → same_inputs d' d.
Proof. intros H k Hk. symmetry. by apply H. Qed.

Lemma same_inputs_trans d1 d2 d3 :
  same_inputs d1 d2 → same_inputs d2 d3 → same_inputs d1 d3.
Proof. intros H1 H2 k Hk. rewrite H2, H1; done. Qed.

Lemma same_inputs_set_field k v p :
  k ∈ pass1_keys → same_inputs (fields p) (fields (set_field k v p)).
Proof.
  intros Hk k' Hk'. simpl. apply lookup_insert_ne. by intros ->.
Qed.

Lemma same_inputs_enrich site cp dn un lvl root p :
  same_inputs (fields p) (fields (enrich site cp dn un lvl root p)).
Proof.
  unfold enrich.
  repeat (eapply same_inputs_trans;
          [|apply same_inputs_set_field; unfold pass1_keys;
            rewrite !elem_of_cons; tauto]).
  apply same_inputs_refl.
Qed.

Lemma read_keys_not_written k :
  k ∈ ["id"; "luid"; "topLevelProject"; "parentProjectId"; "ownerId"] →
  k ∉ pass1_keys.
Proof.
  unfold pass1_keys. intros H Hw.
  repeat (apply elem_of_cons in H as [->|H]);
    try (by apply elem_of_nil in H);
    repeat (apply elem_of_cons in Hw as [?|Hw]; [done|]);
    by apply elem_of_nil in Hw.
Qed.

Lemma same_inputs_getitem d d' k :
  same_inputs d d' →
  k ∈ ["id"; "luid"; "topLevelProject"; "parentProjectId"; "ownerId"] →
  getitem d' k = getitem d k.
Proof.
  intros H Hk. unfold getitem. by rewrite H by by apply read_keys_not_written.
Qed.

Lemma lookup_parent_from_agree (R : project → project → Prop) n vps vps' q :
  (∀ p p', R p p' → fields p' !! "id" = fields p !! "id") →
  Forall2 R vps vps' →
  lookups_agree R (lookup_parent_from n vps q) (lookup_parent_from n vps' q).
Proof.
  intros HR H. revert n.
  induction H as [|p p' ps ps' Hp _ IH]; intros n; simpl; [done|].
  unfold getitem. rewrite (HR _ _ Hp).
  destruct (fields p !! "id") as [i|]; simpl; [|done].
  destruct (py_eq i (PStr (py_str q))); [done|apply IH].
Qed.

Lemma walk_agree fuel vps vps' l d d' :
  Forall2 (λ p p', same_inputs (fields p) (fields p')) vps vps' →
  same_inputs d d' →
  walk fuel vps' l d' = walk fuel vps l d.
Proof.
  intros Hvps. revert l d d'.
  induction fuel as [|fuel IH]; intros l d d' Hd; simpl; [done|].
  rewrite (same_inputs_getitem d d') by (done || (rewrite !elem_of_cons; tauto)).
  destruct (getitem d "parentProjectId") as [pid| |]; simpl; [|done..].
  unfold lookup_parent_project.
  pose proof (lookup_parent_from_agree _ 0 vps vps' pid
                (λ p p' H, H "id" (read_keys_not_written "id" ltac:(left)))
                Hvps) as Hl.
  destruct (lookup_parent_from 0 vps pid) as [[[j q]|]| |],
           (lookup_parent_from 0 vps' pid) as [[[j' q']|]| |];
    simpl in *; try done; [|by subst].
  destruct Hl as [-> Hq].
  rewrite !(same_inputs_getitem (fields q) (fields q')) by (done || (rewrite !elem_of_cons; tauto)).
  destruct (getitem (fields q) "topLevelProject") as [top| |]; simpl; [|done..].
  destruct (py_truthy top); [done|]. by apply IH.
Qed.

Lemma get_project_level_and_root_agree fuel vps vps' d d' :
  Forall2 (λ p p', same_inputs (fields p) (fields p')) vps vps' →
  same_inputs d d' →
  get_project_level_and_root fuel vps' d' = get_project_level_and_root fuel vps d.
Proof.
  intros Hvps Hd. unfold get_project_level_and_root.
  rewrite !(same_inputs_getitem d d') by (done || (rewrite !elem_of_cons; tauto)).
  destruct (getitem d "topLevelProject") as [top| |]; simpl; [|done..].
  destruct (py_truthy top); [done|]. by apply walk_agree.
Qed.

Lemma enriched_agree fuel site w w' p p' :
  st_rest_projects w' = st_rest_projects w →
  st_vpc_users w' = st_vpc_users w →
  Forall2 (λ p p', same_inputs (fields p) (fields p'))
    (st_vpc_projects w) (st_vpc_projects w') →
  fields p' = fields p →
  enriched fuel site w p → enriched fuel site w' p'.
Proof.
  intros Hr Hu Hvps Hf (Hsite & Hperm & Hown & lvl & root & Hwalk & Hlr).
  unfold enriched. rewrite Hr, Hu, Hf. repeat split; try done.
  exists lvl, root. split; [|done]. rewrite <- Hwalk.
  apply get_project_level_and_root_agree; [done|apply same_inputs_refl].
Qed.

Lemma linked_agree vps vps' p p' :
  Forall2 (λ p p', fields p' = fields p) vps vps' →
  fields p' = fields p → parentProject p' = parentProject p →
  linked vps p → linked vps' p'.
Proof.
  intros Hvps Hf Hpp. unfold linked. rewrite Hf, Hpp.
  destruct (py_truthy _); [|done]. intros (found & Hl & Hp).
  unfold lookup_parent_project in *.
  pose proof (lookup_parent_from_agree _ 0 vps vps'
                (dict_get (fields p) "parentProjectId")
                (λ p p' H, f_equal (.!! "id") H) Hvps) as Ha.
  rewrite Hl in Ha.
  destruct (lookup_parent_from 0 vps' _) as [found'| |],
           found as [[j q]|]; simpl in Ha; try done.
  - destruct found' as [[j' q']|]; [|done]. destruct Ha as [-> _].
    by exists (Some (j', q')).
  - destruct found' as [[j' q']|]; [done|]. by exists None.
Qed.

Lemma Forall2_insert_r_keep {A B} (P : A → B → Prop) l k i x y :
  Forall2 P l k → l !! i = Some x → P x y → Forall2 P l (<[i := y]> k).
Proof.
  intros H Hx Hxy. rewrite <- (list_insert_id l i x Hx).
  by apply Forall2_insert.
Qed.

Lemma Forall2_insert_same {A} (P : A → A → Prop) l i x y :
  (∀ z, P z z) → l !! i = Some x → P x y → Forall2 P l (<[i := y]> l).
Proof.
  intros HP Hx Hxy. eapply Forall2_insert_r_keep; [|done..].
  apply Forall_Forall2_diag, Forall_forall. auto.
Qed.

(** ** The two passes *)

(** Reads an entry of a dict through the writes made to it. *)
Ltac lookup_fields :=
  repeat first [rewrite lookup_insert_eq | rewrite lookup_insert_ne by done].

(** When the first pass completes, the REST projects and the users are as
    before, every project has kept the entries the pass does not write
    and its ["parentProject"] entry, and every project is enriched. *)
Lemma pass1_rounds_Returned fuel site n w u w' :
  (n ≤ length (st_vpc_projects w))%nat →
  for_each (seq 0 n) (pass1_body fuel site) w = Returned (u, w') →
  st_rest_projects w' = st_rest_projects w ∧
  st_vpc_users w' = st_vpc_users w ∧
  Forall2 (λ p p', same_inputs (fields p) (fields p') ∧
                   parentProject p' = parentProject p)
    (st_vpc_projects w) (st_vpc_projects w') ∧
  ∀ j p, (j < n)%nat → st_vpc_projects w' !! j = Some p →
         enriched fuel site w' p.
Proof.
  intros Hn H.
  apply (for_each_seq_inv (λ k w1,
           st_rest_projects w1 = st_rest_projects w ∧
           st_vpc_users w1 = st_vpc_users w ∧
           Forall2 (λ p p', same_inputs (fields p) (fields p') ∧
                            parentProject p' = parentProject p)
             (st_vpc_projects w) (st_vpc_projects w1) ∧
           ∀ j p, (j < k)%nat → st_vpc_projects w1 !! j = Some p →
                  enriched fuel site w1 p)) in H.
  - exact H.
  - clear H u w'. intros k w1 u w2 Hk (Hr & Hu & Hf & He) Hb.
    destruct (lookup_lt_is_Some_2 (st_vpc_projects w1) k) as [p Hp].
    { rewrite <- (Forall2_length _ _ _ Hf). lia. }
    destruct (pass1_body_Returned _ _ _ _ _ _ _ Hp Hb)
      as (luid & rp & oid & owner & dn & un & lvl & root
          & Hluid & Hrp & Hoid & Hown & Hdn & Hun & Hwalk & ->).
    set (p' := enrich site (content_permissions rp) dn un lvl root p).
    assert (Hagree : Forall2 (λ p p', same_inputs (fields p) (fields p'))
                       (st_vpc_projects w1) (<[k := p']> (st_vpc_projects w1))).
    { eapply Forall2_insert_same; [intros; apply same_inputs_refl|done|].
      apply same_inputs_enrich. }
    assert (Hwalk' : get_project_level_and_root fuel
                       (<[k := p']> (st_vpc_projects w1)) (fields p')
                     = Returned (lvl, root)).
    { rewrite <- Hwalk. cbv zeta.
      assert (same_inputs
                (fields (set_field "ownerDSID" un
                   (set_field "ownerName" dn
                      (set_field "contentPermissions" (content_permissions rp)
                         (set_field "siteName" (PStr site) p)))))
                (fields p')) as Hin.
      { unfold p', enrich.
        do 2 (eapply same_inputs_trans;
              [|apply same_inputs_set_field; unfold pass1_keys;
                rewrite !elem_of_cons; tauto]).
        apply same_inputs_refl. }
      apply get_project_level_and_root_agree; [|done].
      apply Forall2_insert; [|done].
      apply Forall_Forall2_diag, Forall_forall.
      intros; apply same_inputs_refl. }
    split; [done|]. split; [done|]. split.
    + simpl. destruct (Forall2_lookup_r _ _ _ _ _ Hf Hp) as (p0 & Hp0 & Hin & Hpp).
      eapply Forall2_insert_r_keep; [done..|]. split; [|done].
      eapply same_inputs_trans; [done|apply same_inputs_enrich].
    + intros j pj Hj Hpj. simpl in Hpj.
      destruct (decide (k = j)) as [<-|Hne].
      * rewrite list_lookup_insert_eq in Hpj by by eapply lookup_lt_Some.
        injection Hpj as <-. unfold enriched. simpl.
        split; [by lookup_fields|]. split; [|split].
        -- exists luid, rp. by lookup_fields.
        -- exists oid, owner. lookup_fields. rewrite Hdn, Hun.
           by repeat split.
        -- exists lvl, root. lookup_fields. split; [exact Hwalk'|done].
      * rewrite list_lookup_insert_ne in Hpj by done.
        eapply (enriched_agree _ _ w1); try done.
        apply (He j); [lia|done].
  - split; [done|]. split; [done|]. split; [|intros; lia].
    apply Forall_Forall2_diag, Forall_forall.
    intros; split; [apply same_inputs_refl|done].
Qed.

Lemma pass1_Returned fuel site w u w' :
  pass1 fuel site w = Returned (u, w') →
  st_rest_projects w' = st_rest_projects w ∧
  st_vpc_users w' = st_vpc_users w ∧
  Forall2 (λ p p', same_inputs (fields p) (fields p') ∧
                   parentProject p' = parentProject p)
    (st_vpc_projects w) (st_vpc_projects w') ∧
  Forall (enriched fuel site w') (st_vpc_projects w').
Proof.
  unfold pass1, for_each_project. intros H.
  apply pass1_rounds_Returned in H as (Hr & Hu & Hf & He); [|done].
  repeat split; try done.
  apply Forall_lookup_2. intros j p Hj. apply (He j p); [|done].
  apply lookup_lt_Some in Hj. by rewrite <- (Forall2_length _ _ _ Hf) in Hj.
Qed.

(** When the second pass completes, it has changed no entry other than
    ["parentProject"], and has bound that one as [linked] says. *)
Lemma pass2_Returned w u w' :
  Forall (λ p, parentProject p = None) (st_vpc_projects w) →
  pass2 w = Returned (u, w') →
  st_rest_projects w' = st_rest_projects w ∧
  st_vpc_users w' = st_vpc_users w ∧
  Forall2 (λ p p', fields p' = fields p)
    (st_vpc_projects w) (st_vpc_projects w') ∧
  Forall (linked (st_vpc_projects w')) (st_vpc_projects w').
Proof.
  unfold pass2, for_each_project. intros Hnone H.
  apply (for_each_seq_inv (λ k w1,
           st_rest_projects w1 = st_rest_projects w ∧
           st_vpc_users w1 = st_vpc_users w ∧
           Forall2 (λ p p', fields p' = fields p)
             (st_vpc_projects w) (st_vpc_projects w1) ∧
           (∀ j p, (k ≤ j)%nat → st_vpc_projects w1 !! j = Some p →
                   parentProject p = None) ∧
           ∀ j p, (j < k)%nat → st_vpc_projects w1 !! j = Some p →
                  linked (st_vpc_projects w1) p)) in H.
  - destruct H as (Hr & Hu & Hf & _ & Hl). repeat split; try done.
    apply Forall_lookup_2. intros j p Hj. apply (Hl j p); [|done].
    apply lookup_lt_Some in Hj. rewrite <- (Forall2_length _ _ _ Hf) in Hj.
    simpl. lia.
  - clear H u w'. intros k w1 u w2 Hk (Hr & Hu & Hf & Hn & Hl) Hb.
    destruct (lookup_lt_is_Some_2 (st_vpc_projects w1) k) as [p Hp].
    { rewrite <- (Forall2_length _ _ _ Hf). lia. }
    pose proof (pass2_body_Returned _ _ _ _ _ Hp Hb) as Hstep.
    cbv zeta in Hstep.
    destruct (py_truthy (dict_get (fields p) "parentProjectId")) eqn:Ht.
    + destruct Hstep as (found & Hfound & ->).
      set (p' := set_parent (fst <$> found) p).
      assert (Hagree : Forall2 (λ p p', fields p' = fields p)
                         (st_vpc_projects w1)
                         (<[k := p']> (st_vpc_projects w1))).
      { by eapply Forall2_insert_same. }
      split; [done|]. split; [done|]. split; [|split].
      * simpl. destruct (Forall2_lookup_r _ _ _ _ _ Hf Hp) as (p0 & Hp0 & Hin).
        by eapply Forall2_insert_r_keep.
      * intros j pj Hj Hpj. simpl in Hpj.
        rewrite list_lookup_insert_ne in Hpj by lia. apply (Hn j); [lia|done].
      * intros j pj Hj Hpj. simpl in Hpj.
        destruct (decide (k = j)) as [<-|Hne].
        -- rewrite list_lookup_insert_eq in Hpj by by eapply lookup_lt_Some.
           injection Hpj as <-.
           eapply (linked_agree _ _ p'); [exact Hagree|done..|].
           unfold linked. simpl. rewrite Ht. by exists found.
        -- rewrite list_lookup_insert_ne in Hpj by done.
           eapply (linked_agree _ _ pj); [exact Hagree|done..|].
           apply (Hl j); [lia|done].
    + subst w2. split; [done|]. split; [done|]. split; [done|]. split.
      * intros j pj Hj. apply Hn. lia.
      * intros j pj Hj Hpj. destruct (decide (k = j)) as [<-|Hne].
        -- rewrite Hp in Hpj. injection Hpj as <-.
           unfold linked. rewrite Ht. by apply (Hn k).
        -- apply (Hl j); [lia|done].
  - split; [done|]. split; [done|]. split; [|split; [|intros; lia]].
    + by apply Forall_Forall2_diag, Forall_forall.
    + intros j p _ Hj. by apply (proj1 (Forall_lookup _ _) Hnone j).
Qed.

(** When [main] reaches [json.dump]: the REST projects and the users are
    as fetched, every project has kept the entries the passes do not
    write, and every project is enriched and linked. *)
Lemma main_Returned fuel site rest_projects vpc_projects vpc_users w :
  main fuel site rest_projects vpc_projects vpc_users = Returned w →
  st_rest_projects w = rest_projects ∧
  st_vpc_users w = vpc_users ∧
  Forall2 (λ d p, same_inputs d (fields p))
    vpc_projects (st_vpc_projects w) ∧
  Forall (enriched fuel site w) (st_vpc_projects w) ∧
  Forall (linked (st_vpc_projects w)) (st_vpc_projects w).
Proof.
  unfold main. rewrite bind_eq.
  destruct (pass1 _ _ _) as [[[] w1]| |] eqn:H1; [|done..].
  destruct (pass2 w1) as [[[] w2]| |] eqn:H2; [|done..].
  simpl. intros [= <-].
  apply pass1_Returned in H1 as (Hr1 & Hu1 & Hf1 & He1). simpl in *.
  apply pass2_Returned in H2 as (Hr2 & Hu2 & Hf2 & Hl2).
  2:{ apply Forall_lookup_2. intros j p Hj.
      destruct (Forall2_lookup_r _ _ _ _ _ Hf1 Hj) as (p0 & Hp0 & _ & ->).
      apply list_lookup_fmap_Some in Hp0 as (d & -> & _). done. }
  split; [congruence|]. split; [congruence|]. split; [|split; [|done]].
  - apply Forall2_fmap_l in Hf1.
    eapply Forall2_trans; [|exact Hf1|exact Hf2].
    simpl. intros d p1 p2 [H _] ->. exact H.
  - apply Forall_lookup_2. intros j p2 Hj.
    destruct (Forall2_lookup_r _ _ _ _ _ Hf2 Hj) as (p1 & Hp1 & Hfe).
    eapply (enriched_agree _ _ w1); try done.
    + eapply Forall2_impl; [exact Hf2|]. simpl. intros ? ? ->.
      apply same_inputs_refl.
    + by apply (proj1 (Forall_lookup _ _) He1 j).
Qed.

(** ** Failures of the join *)

Lemma seq_split_at i n :
  (i < n)%nat → seq 0 n = (seq 0 i ++ i :: seq (S i) (n - S i))%list.
Proof.
  intros Hi. replace n with (i + S (n - S i))%nat at 1 by lia.
  by rewrite seq_app.
Qed.

(** The first pass at a project it cannot process: it raises what the
    round of that project raises, provided the rounds before it complete;
    and it never completes. *)
Lemma pass1_stops_at fuel site w i e :
  (i < length (st_vpc_projects w))%nat →
  (∀ u w1, for_each (seq 0 i) (pass1_body fuel site) w = Returned (u, w1) →
           pass1_body fuel site i w1 = Raised e) →
  (∀ u w', pass1 fuel site w ≠ Returned (u, w')) ∧
  (∀ u w1, for_each (seq 0 i) (pass1_body fuel site) w = Returned (u, w1) →
           pass1 fuel site w = Raised e).
Proof.
  intros Hi Hbody. unfold pass1, for_each_project.
  rewrite (seq_split_at i _ Hi), for_each_app.
  destruct (for_each (seq 0 i) _ w) as [[u1 w1]| |] eqn:Hpre.
  - simpl. rewrite bind_eq, (Hbody _ _ eq_refl). split; [done|].
    by intros.
  - split; [done|]. by intros.
  - split; [done|]. by intros.
Qed.

Lemma main_stops_at fuel site rest_projects vpc_projects vpc_users i e :
  (i < length vpc_projects)%nat →
  (∀ u w1, for_each (seq 0 i) (pass1_body fuel site)
             (fetched_state rest_projects vpc_projects vpc_users)
             = Returned (u, w1) →
           pass1_body fuel site i w1 = Raised e) →
  (∀ w, main fuel site rest_projects vpc_projects vpc_users ≠ Returned w) ∧
  (∀ u w1, for_each (seq 0 i) (pass1_body fuel site)
             (fetched_state rest_projects vpc_projects vpc_users)
             = Returned (u, w1) →
           main fuel site rest_projects vpc_projects vpc_users = Raised e).
Proof.
  intros Hi Hbody.
  destruct (pass1_stops_at fuel site
              (fetched_state rest_projects vpc_projects vpc_users) i e)
    as [Hnever Hraise]; [by simpl; rewrite length_fmap|done|].
  unfold main. rewrite bind_eq. split.
  - intros w. destruct (pass1 _ _ _) as [[u1 w1]| |] eqn:H1; [|done..].
    by destruct (Hnever u1 w1).
  - intros u w1 Hpre. by rewrite (Hraise _ _ Hpre).
Qed.

(** The project at position [i], when the rounds before it have completed:
    it has the entries it was fetched with on the keys the pass reads. *)
Lemma pass1_rounds_project fuel site rest_projects vpc_projects vpc_users
    i d u w1 :
  vpc_projects !! i = Some d →
  for_each (seq 0 i) (pass1_body fuel site)
    (fetched_state rest_projects vpc_projects vpc_users) = Returned (u, w1) →
  st_rest_projects w1 = rest_projects ∧ st_vpc_users w1 = vpc_users ∧
  ∃ p, st_vpc_projects w1 !! i = Some p ∧ same_inputs d (fields p).
Proof.
  intros Hd H. apply pass1_rounds_Returned in H as (Hr & Hu & Hf & _).
  - split; [done|]. split; [done|]. simpl in Hf.
    destruct (Forall2_lookup_l _ _ _ i (fetched d) Hf) as (p & Hp & Hin & _).
    + by rewrite list_lookup_fmap, Hd.
    + by exists p.
  - simpl. rewrite length_fmap. apply lookup_lt_Some in Hd. lia.
Qed.

(** C2.  When a project's [luid] has no REST project, [main] never reaches
    the output, whatever the iterations granted to the walks; and when the
    first pass gets to that project it raises an exception whose message
    carries that [luid]. *)
Theorem join_inconsistency_is_fatal site rest_projects vpc_projects vpc_users
    i d luid :
  vpc_projects !! i = Some d →
  d !! "luid" = Some luid →
  lookup_project_by_id rest_projects luid = None →
  (∀ fuel w,
     main fuel site rest_projects vpc_projects vpc_users ≠ Returned w) ∧
  (∀ fuel u w1,
     for_each (seq 0 i) (pass1_body fuel site)
       (fetched_state rest_projects vpc_projects vpc_users)
       = Returned (u, w1) →
     main fuel site rest_projects vpc_projects vpc_users
       = Raised (Exception ("Project with luid " +:+ py_str luid
                            +:+ " not found"))).
Proof.
  intros Hd Hluid Hnone.
  assert (∀ fuel u w1,
            for_each (seq 0 i) (pass1_body fuel site)
              (fetched_state rest_projects vpc_projects vpc_users)
              = Returned (u, w1) →
            pass1_body fuel site i w1
              = Raised (Exception (not_found_message luid))) as Hbody.
  { intros fuel u w1 Hpre.
    destruct (pass1_rounds_project _ _ _ _ _ _ _ _ _ Hd Hpre)
      as (Hr & _ & p & Hp & Hin).
    apply (pass1_body_no_rest_project _ _ _ _ p); [done| |by rewrite Hr].
    rewrite Hin; [done|]. apply read_keys_not_written.
    rewrite !elem_of_cons; tauto. }
  split.
  - intros fuel. eapply main_stops_at; [by eapply lookup_lt_Some|].
    apply Hbody.
  - intros fuel. eapply main_stops_at; [by eapply lookup_lt_Some|].
    apply Hbody.
Qed.

Lemma join_inconsistency_is_fatal_witness :
  main 5 "site" scenario_rest [scenario_1; stray_project] scenario_users
    = Raised (Exception "Project with luid 9 not found").
Proof.
  refine (proj2 (join_inconsistency_is_fatal "site" scenario_rest
                   [scenario_1; stray_project] scenario_users
                   1 stray_project (PStr "9") _ _ _) 5%nat tt _ _);
    [reflexivity | reflexivity | reflexivity | ].
  vm_compute. reflexivity.
Defined.

(** When the first pass gets to a project whose owner is not among the
    users, [main] stops on the attempt to subscript [None]. *)
Lemma unknown_owner_raises site rest_projects vpc_projects vpc_users
    i d luid rest_project owner_id :
  vpc_projects !! i = Some d →
  d !! "luid" = Some luid →
  lookup_project_by_id rest_projects luid = Some rest_project →
  d !! "ownerId" = Some owner_id →
  lookup_user_by_id vpc_users owner_id = Returned None →
  ∀ fuel u w1,
    for_each (seq 0 i) (pass1_body fuel site)
      (fetched_state rest_projects vpc_projects vpc_users)
      = Returned (u, w1) →
    main fuel site rest_projects vpc_projects vpc_users
      = Raised (TypeError "'NoneType' object is not subscriptable").
Proof.
  intros Hd Hluid Hrp Hoid Hown fuel.
  eapply main_stops_at; [by eapply lookup_lt_Some|].
  intros u w1 Hpre.
  destruct (pass1_rounds_project _ _ _ _ _ _ _ _ _ Hd Hpre)
    as (Hr & Hu & p & Hp & Hin).
  apply (pass1_body_no_owner _ _ _ _ p luid rest_project owner_id);
    [done| |by rewrite Hr| |by rewrite Hu].
  - rewrite Hin; [done|]. apply read_keys_not_written.
    rewrite !elem_of_cons; tauto.
  - rewrite Hin; [done|]. apply read_keys_not_written.
    rewrite !elem_of_cons; tauto.
Qed.

(** C5 (what the code does).  On a project whose [ownerId] "u2" matches no
    user, [main] stops with the [TypeError] of subscripting [None]: the
    message names neither the project nor the owner identifier. *)
Theorem unknown_owner_error_is_not_descriptive :
  ∀ fuel,
    main fuel "site" scenario_rest [orphan_project] scenario_users
      = Raised (TypeError "'NoneType' object is not subscriptable").
Proof.
  intros fuel.
  by apply (unknown_owner_raises "site" scenario_rest [orphan_project]
              scenario_users 0 orphan_project (PStr "1")
              {| id := PStr "1"; content_permissions := PStr "managed" |}
              (PStr "u2") eq_refl eq_refl eq_refl eq_refl eq_refl fuel tt
              (fetched_state scenario_rest [orphan_project] scenario_users)).
Qed.

(** ** The outcome of a completed run *)



(** C8.  When [main] completes, the REST projects and the users are the
    collections that were fetched, and the VizPortal projects are the
    fetched ones, position by position, with every entry outside the keys
    the first pass writes (and outside ["parentProject"]) as fetched. *)
Theorem reconciliation_frame fuel site rest_projects vpc_projects vpc_users w :
  main fuel site rest_projects vpc_projects vpc_users = Returned w →
  st_rest_projects w = rest_projects ∧
  st_vpc_users w = vpc_users ∧
  Forall2 (λ d p, ∀ k, k ∉ pass1_keys → fields p !! k = d !! k)
    vpc_projects (st_vpc_projects w).
Proof.
  intros Hmain. by apply main_Returned in Hmain as (? & ? & ? & _).
Qed.

(** C9.  When [main] completes, every project of the output has the
    configured site name under ["siteName"], and the output has one
    record per fetched project. *)
Theorem site_name_attached fuel site_name rest_projects vpc_projects
    vpc_users w :
  main fuel site_name rest_projects vpc_projects vpc_users = Returned w →
  length (st_vpc_projects w) = length vpc_projects ∧
  ∀ p, p ∈ st_vpc_projects w → fields p !! "siteName" = Some (PStr site_name).
Proof.
  intros Hmain. apply main_Returned in Hmain as (_ & _ & Hf & He & _).
  split; [symmetry; by eapply Forall2_length|].
  intros p Hp. by destruct (proj1 (Forall_forall _ _) He p Hp) as [? _].
Qed.

(** ** The VizPortal fetch *)

Lemma get_project_vpc_data_paging projects users :
  get_project_vpc_data (paging_server projects users)
    = Returned (take 600 projects, users).
Proof. reflexivity. Qed.

(** C7 (what the code does).  The fetch asks for one page of at most 600
    projects: from an end that holds 601 projects and honours the page it
    returns 600 of them. *)
Theorem fetch_is_capped_at_600 :
  length site_601 = 601%nat ∧
  ∃ projects users,
    get_project_vpc_data (paging_server site_601 scenario_users)
      = Returned (projects, users) ∧
    length projects = 600%nat.
Proof.
  assert (length site_601 = 601%nat) as Hlen.
  { unfold site_601. by rewrite length_fmap, length_seq. }
  split; [done|].
  exists (take 600 site_601), scenario_users.
  split; [apply get_project_vpc_data_paging|].
  rewrite length_take, Hlen. done.
Qed.

(** ** The lookups and [str] *)

(** C10.  On users and projects that all carry an ["id"], the two VizPortal
    lookups return the first record whose stored ["id"] is the string
    [str(query)] ([None] when there is none), so an integer query finds
    the record stored under its decimal string; the REST lookup returns
    the first item whose [id] is [==] to the query itself, and an item
    whose [id] is a string is never found by an integer query. *)
Theorem lookups_coerce_query_to_str (vpc_users : list dict)
    (vpc_projects : list project) (items : list ProjectItem) (query : pyval) :
  Forall (λ u : dict, is_Some (u !! "id")) vpc_users →
  Forall (λ p, is_Some (fields p !! "id")) vpc_projects →
  lookup_user_by_id vpc_users query
    = Returned (snd <$> list_find
                  (λ u : dict, u !! "id" = Some (PStr (py_str query)))
                  vpc_users) ∧
  lookup_parent_project vpc_projects query
    = Returned (list_find
                  (λ p, fields p !! "id" = Some (PStr (py_str query)))
                  vpc_projects) ∧
  (∀ (z : Z) (u : dict),
     u !! "id" = Some (PStr (pretty z)) →
     lookup_user_by_id (u :: vpc_users) (PInt z) = Returned (Some u)) ∧
  (∀ (z : Z) (p : project),
     fields p !! "id" = Some (PStr (pretty z)) →
     lookup_parent_project (p :: vpc_projects) (PInt z)
       = Returned (Some (0%nat, p))) ∧
  lookup_project_by_id items query
    = snd <$> list_find (λ it, py_eq (id it) query = true) items ∧
  (∀ (z : Z) (s : string) (c : pyval),
     lookup_project_by_id
       ({| id := PStr s; content_permissions := c |} :: items) (PInt z)
     = lookup_project_by_id items (PInt z)).
Proof.
  intros Hu Hp. split; [by apply lookup_user_by_id_find|]. split.
  { unfold lookup_parent_project. rewrite lookup_parent_from_find by done.
    by destruct (list_find _ vpc_projects) as [[]|]. }
  split.
  { intros z u Hid. simpl. unfold getitem. rewrite Hid. simpl.
    by rewrite bool_decide_eq_true_2. }
  split.
  { intros z p Hid. unfold lookup_parent_project. simpl. unfold getitem.
    rewrite Hid. simpl. by rewrite bool_decide_eq_true_2. }
  split; [apply lookup_project_by_id_find|]. done.
Qed.

Lemma lookups_coerce_query_to_str_witness :
  lookup_user_by_id scenario_users (PStr "u1")
    = Returned (head scenario_users) ∧
  lookup_parent_project (fetched <$> scenario_projects) (PInt 2)
    = Returned (Some (1%nat, fetched scenario_2)) ∧
  lookup_project_by_id scenario_rest (PInt 2) = None.
Proof.
  destruct (lookups_coerce_query_to_str scenario_users
              (fetched <$> scenario_projects) scenario_rest (PStr "u1"))
    as (Hu & _).
  { repeat constructor; by eexists. }
  { repeat constructor; by eexists. }
  destruct (lookups_coerce_query_to_str scenario_users
              (fetched <$> scenario_projects) scenario_rest (PInt 2))
    as (_ & Hp & _ & _ & Hr & _).
  { repeat constructor; by eexists. }
  { repeat constructor; by eexists. }
  split; [exact Hu|]. split; [exact Hp|exact Hr].
Defined.

(** [str] of an integer is its decimal numeral, with a sign when
    negative. *)
Example py_str_int :
  py_str (PInt 42) = "42" ∧ py_str (PInt 0) = "0" ∧ py_str (PInt (-7)) = "-7".
Proof. by vm_compute. Qed.

(** [==] does not convert: a string is not equal to the integer it
    spells, while [True == 1]. *)
Example py_eq_no_coercion :
  py_eq (PStr "2") (PInt 2) = false ∧ py_eq (PBool true) (PInt 1) = true.
Proof. done. Qed.

(** ** Instances on the fixtures *)

Lemma top_level_identity_witness :
  get_project_level_and_root 0 [] scenario_1 = Returned (0, PStr "1").
Proof.
  apply (top_level_identity 0 [] scenario_1 (PBool true) (PStr "1"));
    reflexivity.
Defined.

Lemma depth_monotonicity_witness :
  get_project_level_and_root 2 (fetched <$> scenario_projects) scenario_3
    = Returned (1 + 1, PStr "1").
Proof.
  apply (depth_monotonicity 1 (fetched <$> scenario_projects) scenario_3
           (PBool false) (PStr "2") 1 (fetched scenario_2) 1 (PStr "1"));
    reflexivity.
Defined.


(** The parent embedded in project "3" is project "2" as the run leaves
    it: it shows the owner name and level of the first pass, and its own
    ["parentProject"], which the second pass binds after it has linked
    project "3". *)
Example embedded_parent_is_shared :
  ∃ w p q,
    main 5 "site" scenario_rest scenario_projects scenario_users
      = Returned w ∧
    st_vpc_projects w !! 0%nat = Some p ∧
    embedded_parent w p = Some q ∧
    fields q !! "luid" = Some (PStr "2") ∧
    fields q !! "ownerName" = Some (PStr "Alice") ∧
    fields q !! "projectLevel" = Some (PInt 1) ∧
    parentProject q = Some (Some 2%nat).
Proof.
  destruct (main 5 "site" scenario_rest scenario_projects scenario_users)
    as [w| |] eqn:E; [|by vm_compute in E..].
  vm_compute in E. injection E as <-.
  eexists _, _, _. split; [reflexivity|].
  split; [reflexivity|]. split; [reflexivity|].
  by vm_compute.
Qed.

Lemma reconciliation_frame_witness :
  ∃ w, main 5 "site" scenario_rest scenario_projects scenario_users
         = Returned w ∧
    st_rest_projects w = scenario_rest ∧
    st_vpc_users w = scenario_users ∧
    Forall2 (λ d p, ∀ k, k ∉ pass1_keys → fields p !! k = d !! k)
      scenario_projects (st_vpc_projects w).
Proof.
  destruct (main 5 "site" scenario_rest scenario_projects scenario_users)
    as [w| |] eqn:E; [|by vm_compute in E..].
  exists w. split; [done|].
  exact (reconciliation_frame 5 "site" scenario_rest scenario_projects
           scenario_users w E).
Defined.

Lemma site_name_attached_witness :
  ∃ w, main 5 "site" scenario_rest scenario_projects scenario_users
         = Returned w ∧
    length (st_vpc_projects w) = length scenario_projects ∧
    ∀ p, p ∈ st_vpc_projects w → fields p !! "siteName" = Some (PStr "site").
Proof.
  destruct (main 5 "site" scenario_rest scenario_projects scenario_users)
    as [w| |] eqn:E; [|by vm_compute in E..].
  exists w. split; [done|].
  exact (site_name_attached 5 "site" scenario_rest scenario_projects
           scenario_users w E).
Defined.

(** ** Runs that complete *)

(** More iterations granted do not change what the walk returns or
    raises. *)
Lemma walk_more_fuel fuel fuel' vps l d :
  (fuel ≤ fuel')%nat → walk fuel vps l d ≠ OutOfFuel →
  walk fuel' vps l d = walk fuel vps l d.
Proof.
  revert fuel' l d. induction fuel as [|fuel IH]; intros fuel' l d Hle;
    simpl; [done|].
  destruct fuel' as [|fuel']; [lia|]. simpl.
  destruct (getitem d "parentProjectId") as [pid| |]; simpl; [|done..].
  destruct (lookup_parent_project vps pid) as [[[j q]|]| |]; simpl; [|done..].
  destruct (getitem (fields q) "topLevelProject") as [top| |]; simpl;
    [|done..].
  destruct (py_truthy top); [done|]. apply IH. lia.
Qed.

Lemma get_project_level_and_root_more_fuel fuel fuel' vps d :
  (fuel ≤ fuel')%nat → get_project_level_and_root fuel vps d ≠ OutOfFuel →
  get_project_level_and_root fuel' vps d
    = get_project_level_and_root fuel vps d.
Proof.
  unfold get_project_level_and_root. intros Hle.
  destruct (getitem d "topLevelProject") as [top| |]; simpl; [|done..].
  destruct (py_truthy top); [done|]. by apply walk_more_fuel.
Qed.

Lemma pass1_body_completes fuel site i w p luid rp oid owner dn un lr :
  st_vpc_projects w !! i = Some p →
  fields p !! "luid" = Some luid →
  lookup_project_by_id (st_rest_projects w) luid = Some rp →
  fields p !! "ownerId" = Some oid →
  lookup_user_by_id (st_vpc_users w) oid = Returned (Some owner) →
  owner !! "displayName" = Some dn → owner !! "username" = Some un →
  (let p4 := set_field "ownerDSID" un
               (set_field "ownerName" dn
                  (set_field "contentPermissions" (content_permissions rp)
                     (set_field "siteName" (PStr site) p))) in
   get_project_level_and_root fuel (<[i := p4]> (st_vpc_projects w))
     (fields p4) = Returned lr) →
  pass1_body fuel site i w
    = Returned (tt, with_project i
                      (enrich site (content_permissions rp) dn un
                         (fst lr) (snd lr) p) w).
Proof.
  intros Hp Hluid Hrp Hoid Hown Hdn Hun Hwalk.
  pose proof (lookup_lt_Some _ _ _ Hp) as Hi.
  apply getitem_Returned in Hluid, Hoid, Hdn, Hun.
  rewrite <- (with_project_id i p w Hp) at 1.
  unfold pass1_body.
  rewrite bind_eq, setitem_with by done.
  rewrite bind_eq, project_getitem_with by done.
  rewrite getitem_set_field_ne, Hluid by done. cbn [obind].
  rewrite bind_eq. unfold gets at 1. cbn [st_rest_projects with_project].
  rewrite Hrp, bind_eq, setitem_with by done.
  rewrite bind_eq, project_getitem_with by done.
  rewrite !getitem_set_field_ne, Hoid by done. cbn [obind].
  rewrite bind_eq. unfold gets at 1. cbn [st_vpc_users with_project].
  rewrite bind_eq. unfold lift at 1. rewrite Hown. cbn [obind].
  rewrite bind_eq. unfold lift at 1. rewrite Hdn. cbn [obind].
  rewrite bind_eq, setitem_with by done.
  rewrite bind_eq. unfold lift at 1. rewrite Hun. cbn [obind].
  rewrite bind_eq, setitem_with by done.
  rewrite bind_eq. unfold gets at 1. cbn [st_vpc_projects with_project].
  rewrite bind_eq, vpc_project_at_with by done.
  rewrite bind_eq. unfold lift at 1. cbv zeta in Hwalk. rewrite Hwalk.
  cbn [obind].
  rewrite bind_eq, setitem_with by done.
  by rewrite setitem_with by done.
Qed.

Lemma pass1_rounds_complete fuel site rest_projects vpc_projects vpc_users :
  reconcilable fuel rest_projects vpc_projects vpc_users →
  ∀ n, (n ≤ length vpc_projects)%nat →
    ∃ w1, for_each (seq 0 n) (pass1_body fuel site)
            (fetched_state rest_projects vpc_projects vpc_users)
          = Returned (tt, w1).
Proof.
  intros Hok. induction n as [|n IH]; intros Hn; [by eexists|].
  destruct IH as [w1 Hpre]; [lia|].
  destruct (lookup_lt_is_Some_2 vpc_projects n) as [d Hd]; [lia|].
  rewrite seq_S, for_each_app, Hpre. simpl. rewrite bind_eq.
  pose proof Hpre as Hfacts.
  apply pass1_rounds_Returned in Hfacts as (Hr & Hu & Hf & _);
    [|simpl; rewrite length_fmap; lia].
  simpl in Hr, Hu, Hf.
  destruct (Forall2_lookup_l _ _ _ n (fetched d) Hf) as (p & Hp & Hin & _);
    [by rewrite list_lookup_fmap, Hd|].
  simpl in Hin.
  destruct (proj1 (Forall_lookup _ _) Hok _ _ Hd)
    as (_ & (luid & Hluid & [rp Hrp]) & (oid & owner & Hoid & Hown
        & [dn Hdn] & [un Hun]) & lr & Hwalk).
  rewrite (pass1_body_completes fuel site n w1 p luid rp oid owner dn un lr);
    try done.
  - by eexists.
  - rewrite Hin; [done|]. apply read_keys_not_written.
    rewrite !elem_of_cons; tauto.
  - by rewrite Hr.
  - rewrite Hin; [done|]. apply read_keys_not_written.
    rewrite !elem_of_cons; tauto.
  - by rewrite Hu.
  - cbv zeta. rewrite <- Hwalk.
    assert (same_inputs d
              (fields (set_field "ownerDSID" un
                 (set_field "ownerName" dn
                    (set_field "contentPermissions" (content_permissions rp)
                       (set_field "siteName" (PStr site) p)))))) as Hin4.
    { do 4 (eapply same_inputs_trans;
            [|apply same_inputs_set_field; unfold pass1_keys;
              rewrite !elem_of_cons; tauto]).
      done. }
    apply get_project_level_and_root_agree; [|done].
    eapply Forall2_insert_r_keep; [|by rewrite list_lookup_fmap, Hd|done].
    eapply Forall2_impl; [exact Hf|]. by intros ? ? [? _].
Qed.

Lemma pass2_body_completes i w p :
  st_vpc_projects w !! i = Some p →
  Forall (λ p, is_Some (fields p !! "id")) (st_vpc_projects w) →
  ∃ w', pass2_body i w = Returned (tt, w') ∧
        st_rest_projects w' = st_rest_projects w ∧
        st_vpc_users w' = st_vpc_users w ∧
        Forall2 (λ p p', fields p' = fields p)
          (st_vpc_projects w) (st_vpc_projects w').
Proof.
  intros Hp Hid. pose proof (lookup_lt_Some _ _ _ Hp) as Hi.
  unfold pass2_body. rewrite bind_eq.
  unfold vpc_project_at, gets at 1. rewrite Hp. simpl.
  destruct (py_truthy _).
  - rewrite bind_eq. unfold gets at 1.
    rewrite bind_eq. unfold lift at 1, lookup_parent_project.
    rewrite lookup_parent_from_find by done. cbn [obind].
    match goal with
    | |- context [update_project ?f i w] =>
        pose proof (update_project_with f i p w Hi) as Hupd
    end.
    rewrite (with_project_id i p w Hp) in Hupd.
    eexists. split; [exact Hupd|]. split; [done|]. split; [done|]. simpl.
    by eapply Forall2_insert_same.
  - eexists. split; [done|]. split; [done|]. split; [done|].
    by apply Forall_Forall2_diag, Forall_forall.
Qed.

Lemma pass2_rounds_complete w :
  Forall (λ p, is_Some (fields p !! "id")) (st_vpc_projects w) →
  ∀ n, (n ≤ length (st_vpc_projects w))%nat →
    ∃ w', for_each (seq 0 n) pass2_body w = Returned (tt, w') ∧
          Forall2 (λ p p', fields p' = fields p)
            (st_vpc_projects w) (st_vpc_projects w').
Proof.
  intros Hid. induction n as [|n IH]; intros Hn.
  { eexists. split; [done|]. by apply Forall_Forall2_diag, Forall_forall. }
  destruct IH as (w1 & Hpre & Hf); [lia|].
  destruct (lookup_lt_is_Some_2 (st_vpc_projects w1) n) as [p Hp].
  { rewrite <- (Forall2_length _ _ _ Hf). lia. }
  destruct (pass2_body_completes n w1 p Hp) as (w2 & Hb & _ & _ & Hf2).
  { apply Forall_lookup_2. intros j q Hq.
    destruct (Forall2_lookup_r _ _ _ _ _ Hf Hq) as (q0 & Hq0 & ->).
    by apply (proj1 (Forall_lookup _ _) Hid j). }
  exists w2. rewrite seq_S, for_each_app, Hpre. simpl.
  rewrite bind_eq, Hb. split; [done|].
  eapply Forall2_trans; [|exact Hf|exact Hf2]. simpl. congruence.
Qed.

(** On reconcilable collections [main] reaches the output. *)
Lemma main_completes fuel site rest_projects vpc_projects vpc_users :
  reconcilable fuel rest_projects vpc_projects vpc_users →
  ∃ w, main fuel site rest_projects vpc_projects vpc_users = Returned w.
Proof.
  intros Hok.
  destruct (pass1_rounds_complete fuel site _ _ _ Hok (length vpc_projects))
    as [w1 H1]; [done|].
  pose proof H1 as Hfacts.
  apply pass1_rounds_Returned in Hfacts as (_ & _ & Hf & _);
    [|by simpl; rewrite length_fmap].
  simpl in Hf.
  destruct (pass2_rounds_complete w1) with (n := length (st_vpc_projects w1))
    as (w2 & H2 & _); [|done|].
  { apply Forall_lookup_2. intros j p Hp.
    destruct (Forall2_lookup_r _ _ _ _ _ Hf Hp) as (p0 & Hp0 & Hin & _).
    apply list_lookup_fmap_Some in Hp0 as (d & -> & Hd).
    rewrite Hin by (apply read_keys_not_written; rewrite !elem_of_cons; tauto).
    by destruct (proj1 (Forall_lookup _ _) Hok _ _ Hd) as (? & _). }
  exists w2. unfold main. rewrite bind_eq.
  unfold pass1, for_each_project at 1. simpl. rewrite length_fmap, H1.
  unfold pass2, for_each_project. by rewrite H2.
Qed.

Example scenario_reconcilable :
  reconcilable 2 scenario_rest scenario_projects scenario_users.
Proof.
  repeat constructor; try (by eexists); try (by eexists _, _).
Qed.

(** * Further properties of the code *)

(** ** The lookups, record by record *)

Lemma not_py_eq_str v s : py_eq v (PStr s) = false ↔ v ≠ PStr s.
Proof.
  rewrite <- py_eq_str. destruct (py_eq v (PStr s)); split; congruence.
Qed.

(** X1.  [lookup_user_by_id] returns a user exactly when it is the first
    one whose ["id"] is the string [str(user_id)] and every user before it
    has an ["id"]; the users after it are not inspected. *)
Theorem lookup_user_by_id_first_match (vpc_users : list dict) user_id u :
  lookup_user_by_id vpc_users user_id = Returned (Some u) ↔
  ∃ before after,
    vpc_users = (before ++ u :: after)%list ∧
    u !! "id" = Some (PStr (py_str user_id)) ∧
    Forall (other_id (py_str user_id)) before.
Proof.
  induction vpc_users as [|x xs IH]; simpl.
  - split; [done|]. intros (before & after & H & _). by destruct before.
  - unfold getitem. destruct (x !! "id") as [i|] eqn:Hi; simpl.
    + destruct (py_eq i (PStr (py_str user_id))) eqn:E.
      * apply py_eq_str in E as ->. split.
        -- intros [= <-]. by exists [], xs.
        -- intros ([|y before] & after & H & Hu & Hb); simplify_eq/=; [done|].
           apply Forall_cons in Hb as [(i' & Hi' & Hne) _]. congruence.
      * apply not_py_eq_str in E. rewrite IH. split.
        -- intros (before & after & -> & Hu & Hb). exists (x :: before), after.
           split; [done|]. split; [done|]. constructor; [by exists i|done].
        -- intros ([|y before] & after & H & Hu & Hb); simplify_eq/=;
             try congruence.
           apply Forall_cons in Hb as [_ Hb]. by exists before, after.
    + split; [done|].
      intros ([|y before] & after & H & Hu & Hb); simplify_eq/=.
      apply Forall_cons in Hb as [(i' & Hi' & _) _]. congruence.
Qed.

(** X2.  [lookup_user_by_id] returns [None] exactly when every user has an
    ["id"] and none of them is the string [str(user_id)]. *)
Theorem lookup_user_by_id_none (vpc_users : list dict) user_id :
  lookup_user_by_id vpc_users user_id = Returned None ↔
  Forall (other_id (py_str user_id)) vpc_users.
Proof.
  induction vpc_users as [|x xs IH]; simpl.
  - split; [constructor|done].
  - unfold getitem. destruct (x !! "id") as [i|] eqn:Hi; simpl.
    + destruct (py_eq i (PStr (py_str user_id))) eqn:E.
      * apply py_eq_str in E as ->. split; [done|].
        intros [(i' & Hi' & Hne) _]%Forall_cons. congruence.
      * apply not_py_eq_str in E. rewrite IH. split.
        -- intros Hxs. constructor; [by exists i|done].
        -- by intros [_ Hxs]%Forall_cons.
    + split; [done|]. intros [(i' & Hi' & _) _]%Forall_cons. congruence.
Qed.

(** X3.  [lookup_user_by_id] raises exactly when a user without ["id"]
    comes before any match; the exception is [KeyError('id')]. *)
Theorem lookup_user_by_id_raises (vpc_users : list dict) user_id e :
  lookup_user_by_id vpc_users user_id = Raised e ↔
  e = KeyError "id" ∧
  ∃ before u after,
    vpc_users = (before ++ u :: after)%list ∧ u !! "id" = None ∧
    Forall (other_id (py_str user_id)) before.
Proof.
  induction vpc_users as [|x xs IH]; simpl.
  - split; [done|]. intros (_ & before & u & after & H & _).
    by destruct before.
  - unfold getitem. destruct (x !! "id") as [i|] eqn:Hi; simpl.
    + destruct (py_eq i (PStr (py_str user_id))) eqn:E.
      * apply py_eq_str in E as ->. split; [done|].
        intros (_ & [|y before] & u & after & H & Hu & Hb); simplify_eq/=.
        apply Forall_cons in Hb as [(i' & Hi' & Hne) _]. congruence.
      * apply not_py_eq_str in E. rewrite IH. split.
        -- intros (-> & before & u & after & -> & Hu & Hb). split; [done|].
           exists (x :: before), u, after.
           split; [done|]. split; [done|]. constructor; [by exists i|done].
        -- intros (-> & [|y before] & u & after & H & Hu & Hb); simplify_eq/=.
           apply Forall_cons in Hb as [_ Hb]. split; [done|].
           by exists before, u, after.
    + split.
      * intros [= <-]. split; [done|]. by exists [], x, xs.
      * by intros (-> & _).
Qed.

Lemma lookup_parent_from_spec n (vpc_projects : list project) parent_id j p :
  lookup_parent_from n vpc_projects parent_id = Returned (Some (j, p)) ↔
  (n ≤ j)%nat ∧ vpc_projects !! (j - n)%nat = Some p ∧
  fields p !! "id" = Some (PStr (py_str parent_id)) ∧
  ∀ j' p', (j' < j - n)%nat → vpc_projects !! j' = Some p' →
           other_id (py_str parent_id) (fields p').
Proof.
  revert n. induction vpc_projects as [|x xs IH]; intros n; simpl.
  - split; [done|]. by intros (_ & ? & _).
  - unfold getitem. destruct (fields x !! "id") as [i|] eqn:Hi; simpl.
    + destruct (py_eq i (PStr (py_str parent_id))) eqn:E.
      * apply py_eq_str in E as ->. split.
        -- intros [= <- <-]. rewrite Nat.sub_diag.
           split; [lia|]. split; [done|]. split; [done|]. intros; lia.
        -- intros (Hle & Hp & Hid & Hb).
           destruct (j - n)%nat as [|m] eqn:Hm.
           ++ simpl in Hp. injection Hp as <-. do 3 f_equal. lia.
           ++ destruct (Hb 0%nat x) as (i' & Hi' & Hne); [lia|done|].
              congruence.
      * apply not_py_eq_str in E. rewrite IH. split.
        -- intros (Hle & Hp & Hid & Hb). split; [lia|].
           replace (j - n)%nat with (S (j - S n)) by lia.
           split; [done|]. split; [done|].
           intros [|j'] p' Hj' Hp'; simpl in Hp'.
           ++ injection Hp' as <-. by exists i.
           ++ apply (Hb j'); [lia|done].
        -- intros (Hle & Hp & Hid & Hb).
           destruct (j - n)%nat as [|m] eqn:Hm.
           ++ simpl in Hp. injection Hp as <-. congruence.
           ++ simpl in Hp. replace (j - S n)%nat with m by lia.
              split; [lia|]. split; [done|]. split; [done|].
              intros j' p' Hj' Hp'. apply (Hb (S j')); [lia|done].
    + split; [done|]. intros (Hle & Hp & Hid & Hb).
      destruct (j - n)%nat as [|m] eqn:Hm.
      * simpl in Hp. injection Hp as <-. congruence.
      * destruct (Hb 0%nat x) as (i' & Hi' & _); [lia|done|]. congruence.
Qed.

(** X4.  [lookup_parent_project] returns the project at position [j]
    exactly when that project's ["id"] is the string [str(parent_id)] and
    every project before it has an ["id"] that is another value: the
    reference returned designates the first match. *)
Theorem lookup_parent_project_first_match (vpc_projects : list project)
    parent_id j p :
  lookup_parent_project vpc_projects parent_id = Returned (Some (j, p)) ↔
  vpc_projects !! j = Some p ∧
  fields p !! "id" = Some (PStr (py_str parent_id)) ∧
  ∀ j' p', (j' < j)%nat → vpc_projects !! j' = Some p' →
           other_id (py_str parent_id) (fields p').
Proof.
  unfold lookup_parent_project. rewrite lookup_parent_from_spec.
  rewrite Nat.sub_0_r. split; [by intros (_ & ?)|]. intros H.
  split; [lia|done].
Qed.

(** X5.  [lookup_project_by_id] returns the first item whose [id] is [==]
    to the query, and [None] exactly when no item's [id] is. *)
Theorem lookup_project_by_id_first_match (items : list ProjectItem) item_id :
  match lookup_project_by_id items item_id with
  | Some item =>
      ∃ before after,
        items = (before ++ item :: after)%list ∧
        py_eq (id item) item_id = true ∧
        Forall (λ it, py_eq (id it) item_id = false) before
  | None => Forall (λ it, py_eq (id it) item_id = false) items
  end.
Proof.
  induction items as [|x xs IH]; simpl; [constructor|].
  destruct (py_eq (id x) item_id) eqn:E.
  - by exists [], xs.
  - destruct (lookup_project_by_id xs item_id) as [item|].
    + destruct IH as (before & after & -> & Hm & Hb).
      exists (x :: before), after. split; [done|]. split; [done|].
      by constructor.
    + by constructor.
Qed.

(** ** The walk along a chain of parents *)

Lemma walk_level_change fuel vps l l' d :
  walk fuel vps l' d = shift_level (l' - l) (walk fuel vps l d).
Proof. rewrite <- walk_shift. f_equal. lia. Qed.

Lemma walk_OutOfFuel_level fuel vps l l' d :
  walk fuel vps l d = OutOfFuel → walk fuel vps l' d = OutOfFuel.
Proof. intros H. by rewrite (walk_level_change fuel vps l l'), H. Qed.

(** The rounds that find a parent that is not top-level only move the loop
    variable up the chain and count. *)
Lemma walk_along_chain vps d k d' :
  climbs vps d k d' →
  ∀ fuel l,
    walk (k + fuel) vps l d = walk fuel vps (l + Z.of_nat k) d'.
Proof.
  induction 1 as [d|d j q k d' (pid & Hpid & Hq) (top & Htop & Hf) _ IH];
    intros fuel l.
  - simpl. f_equal. lia.
  - simpl. apply getitem_Returned in Hpid, Htop.
    rewrite Hpid. simpl. rewrite Hq. simpl. rewrite Htop. simpl. rewrite Hf.
    rewrite IH. f_equal. lia.
Qed.

Lemma get_project_level_and_root_not_top fuel vps d :
  not_top_level d →
  get_project_level_and_root fuel vps d = walk fuel vps 1 d.
Proof.
  intros (top & Htop & Hf). unfold get_project_level_and_root.
  apply getitem_Returned in Htop. rewrite Htop. simpl. by rewrite Hf.
Qed.

(** X6.  The level counts the parent hops: from a project that is not
    top-level, when [k] hops lead through parents that are not top-level
    and the next parent is top-level with luid [r], the walk returns
    [(k + 1, r)] as soon as it is granted [k + 1] rounds. *)
Theorem walk_counts_hops vps d k d' j q r fuel :
  not_top_level d →
  climbs vps d k d' →
  resolves_parent vps d' j q →
  is_top_level (fields q) →
  fields q !! "luid" = Some r →
  get_project_level_and_root (S k + fuel) vps d
    = Returned (Z.of_nat k + 1, r).
Proof.
  intros Hd Hc (pid & Hpid & Hq) (top & Htop & Ht) Hr.
  rewrite get_project_level_and_root_not_top by done.
  replace (S k + fuel)%nat with (k + S fuel)%nat by lia.
  rewrite (walk_along_chain _ _ _ _ Hc). simpl.
  apply getitem_Returned in Hpid, Htop, Hr.
  rewrite Hpid. simpl. rewrite Hq. simpl. rewrite Htop. simpl.
  rewrite Ht, Hr. simpl. do 2 f_equal. lia.
Qed.

Lemma walk_counts_hops_witness :
  get_project_level_and_root 2 (fetched <$> scenario_projects) scenario_3
    = Returned (2, PStr "1").
Proof.
  apply (walk_counts_hops (fetched <$> scenario_projects) scenario_3 1
           scenario_2 2 (fetched scenario_1) (PStr "1") 0).
  - by exists (PBool false).
  - apply (climbs_up _ scenario_3 1 (fetched scenario_2)).
    + by exists (PStr "2").
    + by exists (PBool false).
    + apply climbs_here.
  - by exists (PStr "1").
  - by exists (PBool true).
  - reflexivity.
Defined.

(** X7.  A dangling reference anywhere up the chain: when, after [k] hops
    from a project that is not top-level, the parent identifier matches no
    project, the walk raises the [TypeError] of subscripting [None]. *)
Theorem walk_dangling_parent vps d k d' parent_id fuel :
  not_top_level d →
  climbs vps d k d' →
  d' !! "parentProjectId" = Some parent_id →
  lookup_parent_project vps parent_id = Returned None →
  get_project_level_and_root (S k + fuel) vps d
    = Raised (TypeError "'NoneType' object is not subscriptable").
Proof.
  intros Hd Hc Hpid Hq.
  rewrite get_project_level_and_root_not_top by done.
  replace (S k + fuel)%nat with (k + S fuel)%nat by lia.
  rewrite (walk_along_chain _ _ _ _ Hc). simpl.
  apply getitem_Returned in Hpid. rewrite Hpid. simpl. by rewrite Hq.
Qed.

Lemma walk_dangling_parent_witness :
  get_project_level_and_root 2 [fetched dangling_4; fetched dangling_3]
    dangling_4
    = Raised (TypeError "'NoneType' object is not subscriptable").
Proof.
  apply (walk_dangling_parent [fetched dangling_4; fetched dangling_3]
           dangling_4 1 dangling_3 (PStr "7") 0).
  - by exists (PBool false).
  - apply (climbs_up _ dangling_4 1 (fetched dangling_3)).
    + by exists (PStr "3").
    + by exists (PBool false).
    + apply climbs_here.
  - reflexivity.
  - reflexivity.
Defined.

(** X8.  A project up the chain that is not top-level and has no
    ["parentProjectId"]: the walk raises [KeyError('parentProjectId')]. *)
Theorem walk_missing_parent_id vps d k d' fuel :
  not_top_level d →
  climbs vps d k d' →
  d' !! "parentProjectId" = None →
  get_project_level_and_root (S k + fuel) vps d
    = Raised (KeyError "parentProjectId").
Proof.
  intros Hd Hc Hpid.
  rewrite get_project_level_and_root_not_top by done.
  replace (S k + fuel)%nat with (k + S fuel)%nat by lia.
  rewrite (walk_along_chain _ _ _ _ Hc). simpl.
  unfold getitem. by rewrite Hpid.
Qed.

Lemma walk_missing_parent_id_witness :
  get_project_level_and_root 2 [fetched rootless_6; fetched rootless_5]
    rootless_6
    = Raised (KeyError "parentProjectId").
Proof.
  apply (walk_missing_parent_id [fetched rootless_6; fetched rootless_5]
           rootless_6 1 rootless_5 0).
  - by exists (PBool false).
  - apply (climbs_up _ rootless_6 1 (fetched rootless_5)).
    + by exists (PStr "5").
    + by exists (PBool false).
    + apply climbs_here.
  - reflexivity.
Defined.

(** ** The walk is decided within the size of the collection *)

Lemma walk_S_eq fuel vps l d :
  walk (S fuel) vps l d =
    let? parent_id := getitem d "parentProjectId" in
    let? found := lookup_parent_project vps parent_id in
    match found with
    | None => Raised none_not_subscriptable
    | Some (_, parent_project) =>
        let? top := getitem (fields parent_project) "topLevelProject" in
        if py_truthy top then
          let? luid := getitem (fields parent_project) "luid" in
          Returned (l, luid)
        else walk fuel vps (l + 1) (fields parent_project)
    end.
Proof. done. Qed.

Lemma leaves_after_unique vps d f f' :
  leaves_after vps d f → leaves_after vps d f' → f = f'.
Proof.
  intros [H1 H2] [H1' H2'].
  destruct (Nat.lt_trichotomy f f') as [Hlt|[->|Hlt]]; [|done|].
  - rewrite <- (walk_more_fuel (S f) f') in H2; [done|lia|done].
  - rewrite <- (walk_more_fuel (S f') f) in H2'; [done|lia|done].
Qed.

Lemma leaves_after_exists fuel vps l d :
  walk fuel vps l d ≠ OutOfFuel →
  ∃ f, (f < fuel)%nat ∧ leaves_after vps d f.
Proof.
  induction fuel as [|fuel IH]; intros H; [done|].
  destruct (walk fuel vps 0 d) as [lr|e|] eqn:E.
  - destruct IH as (f & Hf & Hl).
    { intros H'. by rewrite (walk_OutOfFuel_level _ _ _ 0 _ H') in E. }
    exists f. split; [lia|done].
  - destruct IH as (f & Hf & Hl).
    { intros H'. by rewrite (walk_OutOfFuel_level _ _ _ 0 _ H') in E. }
    exists f. split; [lia|done].
  - exists fuel. split; [lia|]. split; [done|].
    intros H'. apply H. by apply (walk_OutOfFuel_level _ _ 0).
Qed.

Lemma leaves_after_up vps d j q f :
  resolves_parent vps d j q → not_top_level (fields q) →
  leaves_after vps (fields q) f → leaves_after vps d (S f).
Proof.
  intros (pid & Hpid & Hq) (top & Htop & Hf) [H1 H2].
  apply getitem_Returned in Hpid, Htop.
  split; rewrite walk_S_eq, Hpid; cbn [obind]; rewrite Hq; cbn [obind];
    rewrite Htop; cbn [obind]; rewrite Hf.
  - by apply (walk_OutOfFuel_level _ _ 0).
  - intros H'. apply H2. by apply (walk_OutOfFuel_level _ _ (0 + 1)).
Qed.

Lemma leaves_after_step vps d f :
  leaves_after vps d (S f) →
  ∃ j q, resolves_parent vps d j q ∧ not_top_level (fields q) ∧
         leaves_after vps (fields q) f.
Proof.
  intros [H1 H2]. rewrite walk_S_eq in H1, H2.
  destruct (getitem d "parentProjectId") as [pid| |] eqn:Hpid; [|done..].
  cbn [obind] in H1, H2.
  destruct (lookup_parent_project vps pid) as [[[j q]|]| |] eqn:Hq; [|done..].
  cbn [obind] in H1, H2.
  destruct (getitem (fields q) "topLevelProject") as [top| |] eqn:Htop;
    [|done..].
  cbn [obind] in H1, H2. destruct (py_truthy top) eqn:Hf.
  { by destruct (getitem (fields q) "luid"). }
  apply getitem_Returned in Hpid, Htop.
  exists j, q. split; [by exists pid|]. split; [by exists top|]. split.
  - by apply (walk_OutOfFuel_level _ _ (0 + 1)).
  - intros H'. apply H2. by apply (walk_OutOfFuel_level _ _ 0).
Qed.

Lemma resolves_parent_lookup vps d j q :
  resolves_parent vps d j q → vps !! j = Some q.
Proof.
  intros (pid & _ & Hq). apply lookup_parent_from_lookup in Hq as (_ & Hq & _).
  by rewrite Nat.sub_0_r in Hq.
Qed.

(** The projects the loop goes through are pairwise distinct: each one
    leaves the loop in fewer rounds than the one before. *)
Lemma leaves_after_visits vps f :
  ∀ d, leaves_after vps d f →
  ∃ js : list nat,
    length js = f ∧ NoDup js ∧
    ∀ j, j ∈ js →
      ∃ q f', vps !! j = Some q ∧ not_top_level (fields q) ∧
              leaves_after vps (fields q) f' ∧ (f' < f)%nat.
Proof.
  induction f as [|f IH]; intros d Hd.
  - exists []. split; [done|]. split; [constructor|]. by intros j Hj%elem_of_nil.
  - destruct (leaves_after_step _ _ _ Hd) as (j & q & Hres & Hnt & Hq).
    destruct (IH _ Hq) as (js & Hlen & Hnd & Hjs).
    pose proof (resolves_parent_lookup _ _ _ _ Hres) as Hj.
    exists (j :: js). split; [by rewrite <- Hlen|]. split.
    + constructor; [|done]. intros Hin.
      destruct (Hjs j Hin) as (q' & f' & Hq' & _ & Hl' & Hlt).
      rewrite Hj in Hq'. injection Hq' as <-.
      pose proof (leaves_after_unique _ _ _ _ Hq Hl'). lia.
    + intros j' [->|Hin]%elem_of_cons.
      * exists q, f. split; [done|]. split; [done|]. split; [done|lia].
      * destruct (Hjs j' Hin) as (q' & f' & Hq' & Hnt' & Hl' & Hlt).
        exists q', f'. split; [done|]. split; [done|]. split; [done|lia].
Qed.

Lemma NoDup_length_bound (js : list nat) n :
  NoDup js → (∀ j, j ∈ js → (j < n)%nat) → (length js ≤ n)%nat.
Proof.
  intros Hnd Hlt. rewrite <- (length_seq n 0).
  apply submseteq_length, NoDup_submseteq; [done|].
  intros j Hj. apply elem_of_seq. specialize (Hlt j Hj). lia.
Qed.

Lemma leaves_after_bound vps d f :
  leaves_after vps d f → (f ≤ length vps)%nat.
Proof.
  intros Hd. destruct (leaves_after_visits _ _ _ Hd) as (js & <- & Hnd & Hjs).
  apply NoDup_length_bound; [done|]. intros j Hj.
  destruct (Hjs j Hj) as (q & ? & Hq & _). by eapply lookup_lt_Some.
Qed.

Lemma walk_within_size fuel vps l d :
  walk fuel vps l d ≠ OutOfFuel →
  walk (S (length vps)) vps l d = walk fuel vps l d.
Proof.
  intros H. destruct (leaves_after_exists _ _ _ _ H) as (f & Hf & Hl).
  pose proof (leaves_after_bound _ _ _ Hl) as Hb. destruct Hl as [_ Hl].
  assert (walk (S f) vps l d ≠ OutOfFuel) as Hl'.
  { intros H'. apply Hl. by apply (walk_OutOfFuel_level _ _ l). }
  rewrite (walk_more_fuel (S f) (S (length vps))) by (done || lia).
  by rewrite (walk_more_fuel (S f) fuel) by (done || lia).
Qed.

Lemma get_project_level_and_root_within_size fuel vps d :
  get_project_level_and_root fuel vps d ≠ OutOfFuel →
  get_project_level_and_root (S (length vps)) vps d
    = get_project_level_and_root fuel vps d.
Proof.
  unfold get_project_level_and_root.
  destruct (getitem d "topLevelProject") as [top| |]; simpl; [|done..].
  destruct (py_truthy top); [done|]. apply walk_within_size.
Qed.

(** X9.  The walk is decided within the size of the collection: whatever
    it returns or raises when granted any number of rounds, it returns or
    raises within [len(vpc_projects) + 1] rounds; a walk still running
    then runs forever. *)
Theorem walk_decided_within_size fuel vps d :
  get_project_level_and_root fuel vps d ≠ OutOfFuel →
  get_project_level_and_root (S (length vps)) vps d
    = get_project_level_and_root fuel vps d.
Proof. apply get_project_level_and_root_within_size. Qed.

Lemma walk_decided_within_size_witness :
  get_project_level_and_root
    (S (length (fetched <$> scenario_projects)))
    (fetched <$> scenario_projects) scenario_3
  = get_project_level_and_root 9 (fetched <$> scenario_projects) scenario_3.
Proof.
  apply (walk_decided_within_size 9 (fetched <$> scenario_projects)
           scenario_3).
  vm_compute. discriminate.
Defined.

(** What a walk that returns has found. *)
Lemma walk_Returned_inv fuel vps :
  ∀ l d n r,
    walk fuel vps l d = Returned (n, r) →
    ∃ f j q,
      leaves_after vps d f ∧ n = l + Z.of_nat f ∧
      vps !! j = Some q ∧ is_top_level (fields q) ∧
      fields q !! "luid" = Some r.
Proof.
  induction fuel as [|fuel IH]; intros l d n r H; [done|].
  rewrite walk_S_eq in H.
  destruct (getitem d "parentProjectId") as [pid| |] eqn:Hpid; [|done..].
  simpl in H.
  destruct (lookup_parent_project vps pid) as [[[j q]|]| |] eqn:Hq; [|done..].
  simpl in H.
  destruct (getitem (fields q) "topLevelProject") as [top| |] eqn:Htop;
    [|done..].
  simpl in H. destruct (py_truthy top) eqn:Hf.
  - destruct (getitem (fields q) "luid") as [luid| |] eqn:Hluid; [|done..].
    simpl in H. injection H as <- <-.
    exists 0%nat, j, q. split.
    { split; [done|]. rewrite walk_S_eq, Hpid. simpl. rewrite Hq. simpl.
      rewrite Htop. simpl. by rewrite Hf, Hluid. }
    apply getitem_Returned in Htop, Hluid.
    split; [lia|]. split.
    { apply lookup_parent_from_lookup in Hq as (_ & Hq & _).
      by rewrite Nat.sub_0_r in Hq. }
    split; [by exists top|done].
  - destruct (IH _ _ _ _ H) as (f & j' & q' & Hl & -> & Hq' & Ht' & Hr).
    apply getitem_Returned in Hpid, Htop.
    exists (S f), j', q'. split.
    { eapply leaves_after_up; [by exists pid|by exists top|done]. }
    split; [lia|done].
Qed.

Lemma walk_Returned_bound fuel vps l d n r :
  walk fuel vps l d = Returned (n, r) →
  (l ≤ n)%Z ∧ (n - l + 1 ≤ Z.of_nat (length vps))%Z.
Proof.
  intros H.
  destruct (walk_Returned_inv _ _ _ _ _ _ H)
    as (f & j & q & Hl & -> & Hq & (top & Htop & Ht) & _).
  split; [lia|].
  destruct (leaves_after_visits _ _ _ Hl) as (js & <- & Hnd & Hjs).
  assert (length (j :: js) ≤ length vps)%nat as Hb; [|simpl in Hb; lia].
  apply NoDup_length_bound.
  - constructor; [|done]. intros Hin.
    destruct (Hjs j Hin) as (q' & ? & Hq' & (top' & Htop' & Hf') & _).
    rewrite Hq in Hq'. injection Hq' as <-. congruence.
  - intros j' [->|Hin]%elem_of_cons; [by eapply lookup_lt_Some|].
    destruct (Hjs j' Hin) as (q' & ? & Hq' & _). by eapply lookup_lt_Some.
Qed.

(** X10.  The root the walk returns is the [luid] of a top-level project:
    the project itself when it is top-level, a project of the collection
    otherwise. *)
Theorem walk_root_is_top_level fuel vps d n r :
  get_project_level_and_root fuel vps d = Returned (n, r) →
  (is_top_level d ∧ d !! "luid" = Some r) ∨
  (not_top_level d ∧
   ∃ j q, vps !! j = Some q ∧ is_top_level (fields q) ∧
          fields q !! "luid" = Some r).
Proof.
  unfold get_project_level_and_root.
  destruct (getitem d "topLevelProject") as [top| |] eqn:Htop; [|done..].
  apply getitem_Returned in Htop. simpl. destruct (py_truthy top) eqn:Hf.
  - destruct (getitem d "luid") as [luid| |] eqn:Hluid; [|done..].
    apply getitem_Returned in Hluid. simpl. intros [= <- <-].
    left. split; [by exists top|done].
  - intros H. right. split; [by exists top|].
    destruct (walk_Returned_inv _ _ _ _ _ _ H) as (f & j & q & _ & _ & ?).
    by exists j, q.
Qed.

Lemma walk_root_is_top_level_witness :
  not_top_level scenario_3 ∧
  ∃ j q, (fetched <$> scenario_projects) !! j = Some q ∧
         is_top_level (fields q) ∧ fields q !! "luid" = Some (PStr "1").
Proof.
  destruct (walk_root_is_top_level 2 (fetched <$> scenario_projects)
              scenario_3 2 (PStr "1")) as [[(top & Htop & Ht) _]|H].
  - reflexivity.
  - vm_compute in Htop. injection Htop as <-. discriminate.
  - exact H.
Defined.

(** X11.  The level the walk returns is between 0 and the number of
    projects in the collection, and it is 0 exactly for a top-level
    project. *)
Theorem walk_level_bounds fuel vps d n r :
  get_project_level_and_root fuel vps d = Returned (n, r) →
  (0 ≤ n ≤ Z.of_nat (length vps))%Z ∧ (n = 0 ↔ is_top_level d).
Proof.
  unfold get_project_level_and_root.
  destruct (getitem d "topLevelProject") as [top| |] eqn:Htop; [|done..].
  apply getitem_Returned in Htop. simpl. destruct (py_truthy top) eqn:Hf.
  - destruct (getitem d "luid") as [luid| |]; [|done..].
    simpl. intros [= <- <-]. split; [lia|]. split; [|done].
    intros _. by exists top.
  - intros H. apply walk_Returned_bound in H as [H1 H2].
    split; [lia|]. split; [lia|].
    intros (top' & Htop' & Ht'). congruence.
Qed.

Lemma walk_level_bounds_witness :
  (0 ≤ 2 ≤ Z.of_nat (length (fetched <$> scenario_projects)))%Z ∧
  (2 = 0 ↔ is_top_level scenario_3).
Proof.
  apply (walk_level_bounds 2 (fetched <$> scenario_projects) scenario_3 2
           (PStr "1")).
  reflexivity.
Defined.

(** ** The output in terms of what was fetched *)

Lemma main_Returned_fetched fuel site rest_projects vpc_projects vpc_users
    w i d :
  main fuel site rest_projects vpc_projects vpc_users = Returned w →
  vpc_projects !! i = Some d →
  ∃ p, st_vpc_projects w !! i = Some p ∧ same_inputs d (fields p) ∧
       enriched fuel site w p ∧ linked (st_vpc_projects w) p ∧
       ∀ d', same_inputs d' (fields p) →
         get_project_level_and_root fuel (st_vpc_projects w) (fields p)
         = get_project_level_and_root fuel (fetched <$> vpc_projects) d'.
Proof.
  intros Hmain Hd.
  apply main_Returned in Hmain as (_ & _ & Hf & He & Hl).
  destruct (Forall2_lookup_l _ _ _ _ _ Hf Hd) as (p & Hp & Hin).
  exists p. split; [done|]. split; [done|].
  split; [by apply (proj1 (Forall_lookup _ _) He i)|].
  split; [by apply (proj1 (Forall_lookup _ _) Hl i)|].
  intros d' Hd'. apply get_project_level_and_root_agree; [|done].
  by apply Forall2_fmap_l.
Qed.

(** X12.  On reconcilable collections (every project with an ["id"], a
    REST project for its [luid], an owner with both names, and a chain of
    parents that reaches a top-level project within [fuel] rounds) [main]
    reaches the output. *)
Theorem main_reaches_output fuel site rest_projects vpc_projects vpc_users :
  reconcilable fuel rest_projects vpc_projects vpc_users →
  ∃ w, main fuel site rest_projects vpc_projects vpc_users = Returned w.
Proof. apply main_completes. Qed.

Lemma main_reaches_output_witness :
  ∃ w, main 2 "site" scenario_rest scenario_projects scenario_users
         = Returned w.
Proof.
  apply (main_reaches_output 2 "site" scenario_rest scenario_projects
           scenario_users).
  repeat constructor; try (by eexists); try (by eexists _, _).
Defined.

(** X13.  The join fields of the output: each output record carries the
    [content_permissions] of the REST project found for the [luid] it was
    fetched with, and the [displayName] and [username] of the user found
    for the [ownerId] it was fetched with. *)
Theorem output_join_fields fuel site rest_projects vpc_projects vpc_users
    w i d :
  main fuel site rest_projects vpc_projects vpc_users = Returned w →
  vpc_projects !! i = Some d →
  ∃ p luid rest_project owner_id owner,
    st_vpc_projects w !! i = Some p ∧
    d !! "luid" = Some luid ∧
    lookup_project_by_id rest_projects luid = Some rest_project ∧
    fields p !! "contentPermissions"
      = Some (content_permissions rest_project) ∧
    d !! "ownerId" = Some owner_id ∧
    lookup_user_by_id vpc_users owner_id = Returned (Some owner) ∧
    is_Some (owner !! "displayName") ∧
    fields p !! "ownerName" = owner !! "displayName" ∧
    is_Some (owner !! "username") ∧
    fields p !! "ownerDSID" = owner !! "username".
Proof.
  intros Hmain Hd.
  destruct (main_Returned_fetched _ _ _ _ _ _ _ _ Hmain Hd)
    as (p & Hp & Hin & (_ & (luid & rp & Hluid & Hrp & Hcp)
        & (oid & owner & Hoid & Hown & Hdn & Hon & Hun & Hds) & _) & _).
  apply main_Returned in Hmain as (Hr & Hu & _).
  rewrite Hr in Hrp. rewrite Hu in Hown.
  rewrite Hin in Hluid, Hoid
    by (apply read_keys_not_written; rewrite !elem_of_cons; tauto).
  by exists p, luid, rp, oid, owner.
Qed.

Lemma output_join_fields_witness :
  ∃ w, main 5 "site" scenario_rest scenario_projects scenario_users
         = Returned w ∧
    ∃ p luid rest_project owner_id owner,
      st_vpc_projects w !! 0%nat = Some p ∧
      scenario_3 !! "luid" = Some luid ∧
      lookup_project_by_id scenario_rest luid = Some rest_project ∧
      fields p !! "contentPermissions"
        = Some (content_permissions rest_project) ∧
      scenario_3 !! "ownerId" = Some owner_id ∧
      lookup_user_by_id scenario_users owner_id = Returned (Some owner) ∧
      is_Some (owner !! "displayName") ∧
      fields p !! "ownerName" = owner !! "displayName" ∧
      is_Some (owner !! "username") ∧
      fields p !! "ownerDSID" = owner !! "username".
Proof.
  destruct (main 5 "site" scenario_rest scenario_projects scenario_users)
    as [w| |] eqn:E; [|by vm_compute in E..].
  exists w. split; [done|].
  exact (output_join_fields 5 "site" scenario_rest scenario_projects
           scenario_users w 0 scenario_3 E eq_refl).
Defined.

(** X14.  The hierarchy fields of the output: each output record carries
    under ["projectLevel"] and ["rootProjectId"] what the walk returns on
    the collection as fetched, from the record as fetched. *)
Theorem output_hierarchy_fields fuel site rest_projects vpc_projects
    vpc_users w i d :
  main fuel site rest_projects vpc_projects vpc_users = Returned w →
  vpc_projects !! i = Some d →
  ∃ p level root,
    st_vpc_projects w !! i = Some p ∧
    get_project_level_and_root fuel (fetched <$> vpc_projects) d
      = Returned (level, root) ∧
    fields p !! "projectLevel" = Some (PInt level) ∧
    fields p !! "rootProjectId" = Some root.
Proof.
  intros Hmain Hd.
  destruct (main_Returned_fetched _ _ _ _ _ _ _ _ Hmain Hd)
    as (p & Hp & Hin & (_ & _ & _ & lvl & root & Hwalk & Hlvl & Hroot)
        & _ & Hsame).
  exists p, lvl, root. split; [done|]. split; [|done].
  by rewrite <- (Hsame d Hin).
Qed.

Lemma output_hierarchy_fields_witness :
  ∃ w, main 5 "site" scenario_rest scenario_projects scenario_users
         = Returned w ∧
    ∃ p level root,
      st_vpc_projects w !! 0%nat = Some p ∧
      get_project_level_and_root 5 (fetched <$> scenario_projects) scenario_3
        = Returned (level, root) ∧
      fields p !! "projectLevel" = Some (PInt level) ∧
      fields p !! "rootProjectId" = Some root.
Proof.
  destruct (main 5 "site" scenario_rest scenario_projects scenario_users)
    as [w| |] eqn:E; [|by vm_compute in E..].
  exists w. split; [done|].
  exact (output_hierarchy_fields 5 "site" scenario_rest scenario_projects
           scenario_users w 0 scenario_3 E eq_refl).
Defined.

(** X15.  The levels of the output: every output record has an integer
    ["projectLevel"] between 0 and the number of projects, and it is 0
    exactly for the records whose [topLevelProject] flag is set. *)
Theorem output_levels_bounded fuel site rest_projects vpc_projects vpc_users
    w p :
  main fuel site rest_projects vpc_projects vpc_users = Returned w →
  p ∈ st_vpc_projects w →
  ∃ level,
    fields p !! "projectLevel" = Some (PInt level) ∧
    (0 ≤ level ≤ Z.of_nat (length vpc_projects))%Z ∧
    (level = 0 ↔ is_top_level (fields p)).
Proof.
  intros Hmain Hp.
  apply main_Returned in Hmain as (_ & _ & Hf & He & _).
  destruct (proj1 (Forall_forall _ _) He p Hp)
    as (_ & _ & _ & lvl & root & Hwalk & Hlvl & _).
  exists lvl. split; [done|]. rewrite (Forall2_length _ _ _ Hf).
  revert Hwalk. unfold get_project_level_and_root.
  destruct (getitem (fields p) "topLevelProject") as [top| |] eqn:Htop;
    [|done..].
  apply getitem_Returned in Htop. simpl. destruct (py_truthy top) eqn:Ht.
  - destruct (getitem (fields p) "luid") as [luid| |]; [|done..].
    simpl. intros [= <- <-]. split; [lia|]. split; [|done].
    intros _. by exists top.
  - intros H. apply walk_Returned_bound in H as [H1 H2].
    split; [lia|]. split; [lia|].
    intros (top' & Htop' & Ht'). congruence.
Qed.

Lemma output_levels_bounded_witness :
  ∃ w, main 5 "site" scenario_rest scenario_projects scenario_users
         = Returned w ∧
    ∀ p, p ∈ st_vpc_projects w →
      ∃ level,
        fields p !! "projectLevel" = Some (PInt level) ∧
        (0 ≤ level ≤ Z.of_nat (length scenario_projects))%Z ∧
        (level = 0 ↔ is_top_level (fields p)).
Proof.
  destruct (main 5 "site" scenario_rest scenario_projects scenario_users)
    as [w| |] eqn:E; [|by vm_compute in E..].
  exists w. split; [done|]. intros p.
  exact (output_levels_bounded 5 "site" scenario_rest scenario_projects
           scenario_users w p E).
Defined.

(** ** Parent and child in the output *)

(** The walk from a project that is not top-level, against the walk from
    the parent it resolves to. *)
Lemma walk_child_parent fuel vps d n r :
  not_top_level d →
  get_project_level_and_root fuel vps d = Returned (n, r) →
  ∃ parent_id j q,
    d !! "parentProjectId" = Some parent_id ∧
    lookup_parent_project vps parent_id = Returned (Some (j, q)) ∧
    ∀ m r', get_project_level_and_root fuel vps (fields q) = Returned (m, r') →
            n = m + 1 ∧ r = r'.
Proof.
  intros Hd. rewrite get_project_level_and_root_not_top by done.
  destruct fuel as [|fuel]; [done|]. rewrite walk_S_eq.
  destruct (getitem d "parentProjectId") as [pid| |] eqn:Hpid; [|done..].
  cbn [obind].
  destruct (lookup_parent_project vps pid) as [[[j q]|]| |] eqn:Hq; [|done..].
  cbn [obind]. intros H. apply getitem_Returned in Hpid.
  exists pid, j, q. split; [done|]. split; [done|].
  intros m r'. unfold get_project_level_and_root.
  destruct (getitem (fields q) "topLevelProject") as [top| |]; [|done..].
  cbn [obind] in *. destruct (py_truthy top).
  - destruct (getitem (fields q) "luid") as [luid| |]; [|done..].
    cbn [obind] in *. intros [= <- <-]. by injection H as <- <-.
  - intros Hq'.
    assert (walk (S fuel) vps (1 + 1) (fields q) = Returned (n, r)) as H'.
    { rewrite walk_more_fuel with (fuel := fuel); [done|lia|by rewrite H]. }
    rewrite walk_shift, Hq' in H'. simpl in H'. by injection H' as <- <-.
Qed.

(** X16.  Parent and child in the output: an output record that is not
    top-level and whose [parentProjectId] is truthy has, through its
    ["parentProject"] reference, a parent record whose level is one less
    than its own and whose root is its own. *)
Theorem output_child_one_below_parent fuel site rest_projects vpc_projects
    vpc_users w p :
  main fuel site rest_projects vpc_projects vpc_users = Returned w →
  p ∈ st_vpc_projects w →
  not_top_level (fields p) →
  py_truthy (dict_get (fields p) "parentProjectId") = true →
  ∃ q level root,
    embedded_parent w p = Some q ∧
    fields q !! "projectLevel" = Some (PInt level) ∧
    fields p !! "projectLevel" = Some (PInt (level + 1)) ∧
    fields q !! "rootProjectId" = Some root ∧
    fields p !! "rootProjectId" = Some root.
Proof.
  intros Hmain Hp Hnt Ht.
  apply main_Returned in Hmain as (_ & _ & _ & He & Hl).
  destruct (proj1 (Forall_forall _ _) He p Hp)
    as (_ & _ & _ & lvl & root & Hwalk & Hlvl & Hroot).
  pose proof (proj1 (Forall_forall _ _) Hl p Hp) as Hlp.
  unfold linked in Hlp. rewrite Ht in Hlp.
  destruct Hlp as (found & Hfound & Hpp).
  destruct (walk_child_parent _ _ _ _ _ Hnt Hwalk)
    as (pid & j & q & Hpid & Hq & Hrel).
  unfold dict_get in Hfound. rewrite Hpid in Hfound. simpl in Hfound.
  rewrite Hq in Hfound. injection Hfound as <-.
  pose proof Hq as Hj. apply lookup_parent_from_lookup in Hj as (_ & Hj & _).
  rewrite Nat.sub_0_r in Hj.
  destruct (proj1 (Forall_lookup _ _) He _ _ Hj)
    as (_ & _ & _ & lq & rq & Hwq & Hlq & Hrq).
  destruct (Hrel _ _ Hwq) as [-> ->].
  exists q, lq, rq. split; [|done].
  unfold embedded_parent. rewrite Hpp. simpl. done.
Qed.

Lemma output_child_one_below_parent_witness :
  ∃ w, main 5 "site" scenario_rest scenario_projects scenario_users
         = Returned w ∧
    ∃ p, st_vpc_projects w !! 0%nat = Some p ∧
      ∃ q level root,
        embedded_parent w p = Some q ∧
        fields q !! "projectLevel" = Some (PInt level) ∧
        fields p !! "projectLevel" = Some (PInt (level + 1)) ∧
        fields q !! "rootProjectId" = Some root ∧
        fields p !! "rootProjectId" = Some root.
Proof.
  destruct (main 5 "site" scenario_rest scenario_projects scenario_users)
    as [w| |] eqn:E; [|by vm_compute in E..].
  exists w. split; [done|].
  destruct (main_Returned_fetched 5 "site" scenario_rest scenario_projects
              scenario_users w 0 scenario_3 E eq_refl) as (p & Hp & Hin & _).
  exists p. split; [done|].
  apply (output_child_one_below_parent 5 "site" scenario_rest
           scenario_projects scenario_users w p E).
  - by eapply list_elem_of_lookup_2.
  - exists (PBool false). split; [|reflexivity].
    rewrite Hin; [reflexivity|]. apply read_keys_not_written.
    rewrite !elem_of_cons; tauto.
  - unfold dict_get. rewrite Hin; [reflexivity|].
    apply read_keys_not_written. rewrite !elem_of_cons; tauto.
Defined.

(** ** The exceptions of [main] *)

Lemma getitem_Raised d k e : getitem d k = Raised e → e = KeyError k.
Proof. unfold getitem. destruct (d !! k); congruence. Qed.

Lemma main_error_key k :
  k ∈ ["luid"; "ownerId"; "id"; "displayName"; "username";
       "topLevelProject"; "parentProjectId"] →
  main_error (KeyError k).
Proof. intros Hk. right. right. by exists k. Qed.

Lemma lookup_user_by_id_Raised users q e :
  lookup_user_by_id users q = Raised e → e = KeyError "id".
Proof.
  induction users as [|u us IH]; simpl; [done|].
  destruct (getitem u "id") as [i| |] eqn:Hi; simpl; [| |done].
  - destruct (py_eq _ _); [done|apply IH].
  - intros [= <-]. by apply getitem_Raised in Hi.
Qed.

Lemma lookup_parent_from_Raised n vps q e :
  lookup_parent_from n vps q = Raised e → e = KeyError "id".
Proof.
  revert n. induction vps as [|p ps IH]; intros n; simpl; [done|].
  destruct (getitem (fields p) "id") as [i| |] eqn:Hi; simpl; [| |done].
  - destruct (py_eq _ _); [done|apply IH].
  - intros [= <-]. by apply getitem_Raised in Hi.
Qed.

Lemma walk_Raised fuel vps :
  ∀ l d e, walk fuel vps l d = Raised e → main_error e.
Proof.
  induction fuel as [|fuel IH]; intros l d e; [done|]. rewrite walk_S_eq.
  destruct (getitem d "parentProjectId") as [pid| |] eqn:Hpid; cbn [obind];
    [| |done].
  2:{ intros [= <-]. apply getitem_Raised in Hpid as ->.
      apply main_error_key. rewrite !elem_of_cons; tauto. }
  destruct (lookup_parent_project vps pid) as [[[j q]|]| |] eqn:Hq;
    cbn [obind]; [| | |done].
  2:{ intros [= <-]. right. by left. }
  2:{ intros [= <-]. apply lookup_parent_from_Raised in Hq as ->.
      apply main_error_key. rewrite !elem_of_cons; tauto. }
  destruct (getitem (fields q) "topLevelProject") as [top| |] eqn:Htop;
    cbn [obind]; [| |done].
  2:{ intros [= <-]. apply getitem_Raised in Htop as ->.
      apply main_error_key. rewrite !elem_of_cons; tauto. }
  destruct (py_truthy top); [|apply IH].
  destruct (getitem (fields q) "luid") as [luid| |] eqn:Hluid; cbn [obind];
    [done| |done].
  intros [= <-]. apply getitem_Raised in Hluid as ->.
  apply main_error_key. rewrite !elem_of_cons; tauto.
Qed.

Lemma get_project_level_and_root_Raised fuel vps d e :
  get_project_level_and_root fuel vps d = Raised e → main_error e.
Proof.
  unfold get_project_level_and_root.
  destruct (getitem d "topLevelProject") as [top| |] eqn:Htop;
    cbn [obind]; [| |done].
  2:{ intros [= <-]. apply getitem_Raised in Htop as ->.
      apply main_error_key. rewrite !elem_of_cons; tauto. }
  destruct (py_truthy top); [|apply walk_Raised].
  destruct (getitem d "luid") as [luid| |] eqn:Hluid; cbn [obind];
    [done| |done].
  intros [= <-]. apply getitem_Raised in Hluid as ->.
  apply main_error_key. rewrite !elem_of_cons; tauto.
Qed.

Lemma pass1_body_Raised fuel site i w e :
  pass1_body fuel site i w = Raised e → main_error e.
Proof.
  unfold pass1_body.
  rewrite bind_eq. unfold setitem at 1, update_project at 1.
  rewrite bind_eq. unfold project_getitem at 1. rewrite bind_eq.
  unfold vpc_project_at at 1, gets at 1. unfold lift at 1.
  match goal with |- context [getitem ?d "luid"] =>
    destruct (getitem d "luid") as [luid| |] eqn:Hluid end; cbn [obind];
    [| |done].
  2:{ intros [= <-]. apply getitem_Raised in Hluid as ->.
      apply main_error_key. rewrite !elem_of_cons; tauto. }
  rewrite bind_eq. unfold gets at 1. cbn [st_rest_projects].
  destruct (lookup_project_by_id (st_rest_projects w) luid) as [rp|].
  2:{ rewrite bind_eq. unfold project_getitem at 1. rewrite bind_eq.
      unfold vpc_project_at at 1, gets at 1. unfold lift at 1.
      rewrite Hluid. cbn [obind]. unfold raise. intros [= <-].
      left. by exists luid. }
  rewrite bind_eq. unfold setitem at 1, update_project at 1.
  rewrite bind_eq. unfold project_getitem at 1. rewrite bind_eq.
  unfold vpc_project_at at 1, gets at 1. unfold lift at 1.
  match goal with |- context [getitem ?d "ownerId"] =>
    destruct (getitem d "ownerId") as [oid| |] eqn:Hoid end; cbn [obind];
    [| |done].
  2:{ intros [= <-]. apply getitem_Raised in Hoid as ->.
      apply main_error_key. rewrite !elem_of_cons; tauto. }
  rewrite bind_eq. unfold gets at 1. cbn [st_vpc_users].
  rewrite bind_eq. unfold lift at 1.
  destruct (lookup_user_by_id (st_vpc_users w) oid) as [[owner|]| |] eqn:Hown;
    cbn [obind]; [| | |done].
  2:{ unfold raise. intros [= <-]. right. by left. }
  2:{ intros [= <-]. apply lookup_user_by_id_Raised in Hown as ->.
      apply main_error_key. rewrite !elem_of_cons; tauto. }
  rewrite bind_eq. unfold lift at 1.
  destruct (getitem owner "displayName") as [dn| |] eqn:Hdn; cbn [obind];
    [| |done].
  2:{ intros [= <-]. apply getitem_Raised in Hdn as ->.
      apply main_error_key. rewrite !elem_of_cons; tauto. }
  rewrite bind_eq. unfold setitem at 1, update_project at 1.
  rewrite bind_eq. unfold lift at 1.
  destruct (getitem owner "username") as [un| |] eqn:Hun; cbn [obind];
    [| |done].
  2:{ intros [= <-]. apply getitem_Raised in Hun as ->.
      apply main_error_key. rewrite !elem_of_cons; tauto. }
  rewrite bind_eq. unfold setitem at 1, update_project at 1.
  rewrite bind_eq. unfold gets at 1.
  rewrite bind_eq. unfold vpc_project_at at 1, gets at 1.
  rewrite bind_eq. unfold lift at 1.
  match goal with |- context [get_project_level_and_root fuel ?v ?d] =>
    destruct (get_project_level_and_root fuel v d) as [lr| |] eqn:Hwalk end;
    cbn [obind]; [| |done].
  2:{ intros [= <-]. by apply get_project_level_and_root_Raised in Hwalk. }
  rewrite bind_eq. unfold setitem, update_project. done.
Qed.

Lemma pass2_body_Raised i w e :
  pass2_body i w = Raised e → e = KeyError "id".
Proof.
  unfold pass2_body. rewrite bind_eq.
  unfold vpc_project_at at 1, gets at 1.
  destruct (py_truthy _); [|done].
  rewrite bind_eq. unfold gets at 1. rewrite bind_eq. unfold lift at 1.
  destruct (lookup_parent_project _ _) as [found| |] eqn:Hf; cbn [obind];
    [done| |done].
  intros [= <-]. by apply lookup_parent_from_Raised in Hf.
Qed.

Lemma for_each_Raised idxs body e :
  ∀ w, for_each idxs body w = Raised e → ∃ i w1, body i w1 = Raised e.
Proof.
  induction idxs as [|i idxs IH]; intros w; simpl; [done|].
  rewrite bind_eq. destruct (body i w) as [[[] w1]| |] eqn:Hb; [| |done].
  - apply IH.
  - intros [= <-]. by exists i, w.
Qed.

(** X17.  The exceptions of [main]: when it raises, the exception is the
    "Project with luid ... not found" [Exception], the [TypeError] of
    subscripting [None], or a [KeyError] on one of the keys it reads
    ("luid", "ownerId", "id", "displayName", "username",
    "topLevelProject", "parentProjectId"); nothing else. *)
Theorem main_raises_only fuel site rest_projects vpc_projects vpc_users e :
  main fuel site rest_projects vpc_projects vpc_users = Raised e →
  main_error e.
Proof.
  unfold main. rewrite bind_eq.
  destruct (pass1 _ _ _) as [[[] w1]| |] eqn:H1; cbn [obind]; [| |done].
  - destruct (pass2 w1) as [[[] w2]| |] eqn:H2; cbn [obind]; [done| |done].
    intros [= <-]. apply for_each_Raised in H2 as (i & w & H2).
    apply pass2_body_Raised in H2 as ->.
    apply main_error_key. rewrite !elem_of_cons; tauto.
  - intros [= <-]. apply for_each_Raised in H1 as (i & w & H1).
    by apply pass1_body_Raised in H1.
Qed.

Lemma main_raises_only_witness :
  main_error (Exception "Project with luid 9 not found").
Proof.
  apply (main_raises_only 5 "site" scenario_rest [scenario_1; stray_project]
           scenario_users).
  vm_compute. reflexivity.
Defined.

(** The round of a project with no ["ownerId"]. *)
Lemma pass1_body_no_owner_id fuel site i w p luid rp :
  st_vpc_projects w !! i = Some p →
  fields p !! "luid" = Some luid →
  lookup_project_by_id (st_rest_projects w) luid = Some rp →
  fields p !! "ownerId" = None →
  pass1_body fuel site i w = Raised (KeyError "ownerId").
Proof.
  intros Hp Hluid Hrp Hoid. pose proof (lookup_lt_Some _ _ _ Hp) as Hi.
  apply getitem_Returned in Hluid.
  rewrite <- (with_project_id i p w Hp) at 1.
  unfold pass1_body.
  rewrite bind_eq, setitem_with by done.
  rewrite bind_eq, project_getitem_with by done.
  rewrite getitem_set_field_ne, Hluid by done. cbn [obind].
  rewrite bind_eq. unfold gets at 1. cbn [st_rest_projects with_project].
  rewrite Hrp, bind_eq, setitem_with by done.
  rewrite bind_eq, project_getitem_with by done.
  rewrite !getitem_set_field_ne by done. unfold getitem. by rewrite Hoid.
Qed.

(** X18.  A project without ["ownerId"] (top-level or not) whose [luid]
    has a REST project: [main] never reaches the output, and when the first
    pass gets to that project it raises [KeyError('ownerId')]. *)
Theorem missing_owner_id_is_fatal site rest_projects vpc_projects vpc_users
    i d luid rest_project :
  vpc_projects !! i = Some d →
  d !! "luid" = Some luid →
  lookup_project_by_id rest_projects luid = Some rest_project →
  d !! "ownerId" = None →
  (∀ fuel w,
     main fuel site rest_projects vpc_projects vpc_users ≠ Returned w) ∧
  (∀ fuel u w1,
     for_each (seq 0 i) (pass1_body fuel site)
       (fetched_state rest_projects vpc_projects vpc_users)
       = Returned (u, w1) →
     main fuel site rest_projects vpc_projects vpc_users
       = Raised (KeyError "ownerId")).
Proof.
  intros Hd Hluid Hrp Hoid.
  assert (∀ fuel u w1,
            for_each (seq 0 i) (pass1_body fuel site)
              (fetched_state rest_projects vpc_projects vpc_users)
              = Returned (u, w1) →
            pass1_body fuel site i w1 = Raised (KeyError "ownerId")) as Hbody.
  { intros fuel u w1 Hpre.
    destruct (pass1_rounds_project _ _ _ _ _ _ _ _ _ Hd Hpre)
      as (Hr & _ & p & Hp & Hin).
    apply (pass1_body_no_owner_id _ _ _ _ p luid rest_project);
      [done| |by rewrite Hr|].
    - rewrite Hin; [done|]. apply read_keys_not_written.
      rewrite !elem_of_cons; tauto.
    - rewrite Hin; [done|]. apply read_keys_not_written.
      rewrite !elem_of_cons; tauto. }
  split.
  - intros fuel. eapply main_stops_at; [by eapply lookup_lt_Some|].
    apply Hbody.
  - intros fuel. eapply main_stops_at; [by eapply lookup_lt_Some|].
    apply Hbody.
Qed.

Lemma missing_owner_id_is_fatal_witness :
  main 5 "site" scenario_rest [ownerless_project] scenario_users
    = Raised (KeyError "ownerId").
Proof.
  refine (proj2 (missing_owner_id_is_fatal "site" scenario_rest
                   [ownerless_project] scenario_users 0 ownerless_project
                   (PStr "1")
                   {| id := PStr "1"; content_permissions := PStr "managed" |}
                   _ _ _ _) 5%nat tt _ _);
    reflexivity.
Defined.

(** ** The rounds granted to the walks *)

Lemma pass1_body_in_range fuel site i w x :
  pass1_body fuel site i w = Returned x →
  is_Some (st_vpc_projects w !! i).
Proof.
  destruct (st_vpc_projects w !! i) as [p|] eqn:Hp; [by eexists|].
  unfold pass1_body.
  rewrite bind_eq. unfold setitem at 1, update_project at 1.
  rewrite bind_eq. unfold project_getitem at 1. rewrite bind_eq.
  unfold vpc_project_at at 1, gets at 1. unfold lift at 1. simpl.
  by rewrite list_lookup_alter_eq, Hp.
Qed.

Lemma pass1_body_fuel f f' site i w x :
  (∀ vps d, length vps = length (st_vpc_projects w) →
            get_project_level_and_root f vps d ≠ OutOfFuel →
            get_project_level_and_root f' vps d
              = get_project_level_and_root f vps d) →
  pass1_body f site i w = Returned x →
  pass1_body f' site i w = Returned x ∧
  length (st_vpc_projects (snd x)) = length (st_vpc_projects w).
Proof.
  intros Hfuel H. destruct x as [[] w'].
  destruct (pass1_body_in_range _ _ _ _ _ H) as [p Hp].
  destruct (pass1_body_Returned _ _ _ _ _ _ _ Hp H)
    as (luid & rp & oid & owner & dn & un & lvl & root
        & Hluid & Hrp & Hoid & Hown & Hdn & Hun & Hwalk & ->).
  split; [|by simpl; rewrite length_insert].
  rewrite (pass1_body_completes f' site i w p luid rp oid owner dn un
             (lvl, root)); try done.
  cbv zeta in *. rewrite Hfuel; [done| |by rewrite Hwalk].
  by rewrite length_insert.
Qed.

Lemma pass1_rounds_fuel f f' site n idxs :
  (∀ vps d, length vps = n →
            get_project_level_and_root f vps d ≠ OutOfFuel →
            get_project_level_and_root f' vps d
              = get_project_level_and_root f vps d) →
  ∀ w x, length (st_vpc_projects w) = n →
    for_each idxs (pass1_body f site) w = Returned x →
    for_each idxs (pass1_body f' site) w = Returned x.
Proof.
  intros Hfuel. induction idxs as [|i idxs IH]; intros w x Hn; simpl; [done|].
  rewrite !bind_eq.
  destruct (pass1_body f site i w) as [[[] w1]| |] eqn:Hb; [|done..].
  apply (pass1_body_fuel f f') in Hb as [-> Hlen]; [|by rewrite Hn].
  apply IH. simpl in Hlen. congruence.
Qed.

Lemma main_fuel f f' site rest_projects vpc_projects vpc_users w :
  (∀ vps d, length vps = length vpc_projects →
            get_project_level_and_root f vps d ≠ OutOfFuel →
            get_project_level_and_root f' vps d
              = get_project_level_and_root f vps d) →
  main f site rest_projects vpc_projects vpc_users = Returned w →
  main f' site rest_projects vpc_projects vpc_users = Returned w.
Proof.
  intros Hfuel. unfold main. rewrite !bind_eq.
  destruct (pass1 f _ _) as [[[] w1]| |] eqn:H1; [|done..].
  unfold pass1, for_each_project in *.
  apply (pass1_rounds_fuel f f' site (length vpc_projects)) in H1;
    [|done|by simpl; rewrite length_fmap].
  by rewrite H1.
Qed.

(** X19.  The result of [main] does not depend on the rounds granted to
    the walks: a state it returns with some bound, it returns with every
    larger bound, and already with [len(vpc_projects) + 1] rounds. *)
Theorem main_needs_no_more_rounds fuel site rest_projects vpc_projects
    vpc_users w :
  main fuel site rest_projects vpc_projects vpc_users = Returned w →
  main (S (length vpc_projects)) site rest_projects vpc_projects vpc_users
    = Returned w ∧
  ∀ fuel', (fuel ≤ fuel')%nat →
    main fuel' site rest_projects vpc_projects vpc_users = Returned w.
Proof.
  intros H. split.
  - eapply main_fuel; [|exact H]. intros vps d <-.
    apply get_project_level_and_root_within_size.
  - intros fuel' Hle. eapply main_fuel; [|exact H]. intros vps d _.
    by apply get_project_level_and_root_more_fuel.
Qed.

Lemma main_needs_no_more_rounds_witness :
  ∃ w, main 5 "site" scenario_rest scenario_projects scenario_users
         = Returned w ∧
       main (S (length scenario_projects)) "site" scenario_rest
         scenario_projects scenario_users = Returned w ∧
       ∀ fuel', (5 ≤ fuel')%nat →
         main fuel' "site" scenario_rest scenario_projects scenario_users
           = Returned w.
Proof.
  destruct (main 5 "site" scenario_rest scenario_projects scenario_users)
    as [w| |] eqn:E; [|by vm_compute in E..].
  exists w. split; [done|].
  exact (main_needs_no_more_rounds 5 "site" scenario_rest scenario_projects
           scenario_users w E).
Defined.
